(** * xg_Stacking_v2.py: model selection and stacking script

    A shallow embedding of the script [xg_Stacking_v2.py] and the proofs of
    the properties its specification states about it.

    The script is a straight line of pandas and scikit-learn calls.  The
    embedding keeps that shape:
    - binary64 numbers are [spec_float] values of the Standard Library, so
      that NaN and the two infinities behave as in IEEE 754;
    - a pandas [Series] is a list of (row label, value) pairs and a
      [DataFrame] an index plus a list of named, typed columns;
    - Python exceptions are an error monad [exc];
    - the numerical routines of the libraries (cross-validated scoring,
      fitting, prediction, the seeded generators) are parameters of the
      section [Script]; everything the script itself decides (order of the
      cleaning steps, row alignment, date columns, the model catalogue, the
      parsing of the selection, the parameter grids, the loop over the
      selection, the hand-over to stacking) is defined here. *)

From Stdlib Require Import List String Ascii ZArith Arith Bool Lia Permutation.
From Stdlib Require Import Floats.SpecFloat.
Import ListNotations.
Local Open Scope string_scope.
Local Open Scope list_scope.

(** ** Exceptions *)

Inductive exn : Type :=
| KeyError (what : string)
| ValueError (what : string)
| TypeError (what : string)
| LibraryError (what : string).

Definition exc (A : Type) : Type := (exn + A)%type.

Definition ok {A : Type} (a : A) : exc A := inr a.
Definition raise {A : Type} (e : exn) : exc A := inl e.

Definition bind {A B : Type} (c : exc A) (k : A -> exc B) : exc B :=
  match c with
  | inl e => inl e
  | inr a => k a
  end.

Notation "x <- c ;; k" := (bind c (fun x => k))
  (at level 61, c at next level, right associativity).
Notation "' pat <- c ;; k" := (bind c (fun x => match x with pat => k end))
  (at level 61, pat pattern, c at next level, right associativity).

(** ** binary64 *)

Module F64.

Definition t := spec_float.

Definition nan : t := S754_nan.
Definition zero : t := S754_zero false.
Definition add : t -> t -> t := SFadd 53 1024.
Definition div : t -> t -> t := SFdiv 53 1024.
Definition ltb : t -> t -> bool := SFltb.
Definition of_Z (z : Z) : t := binary_normalize 53 1024 z 0 false.

Definition isnan (x : t) : bool :=
  match x with S754_nan => true | _ => false end.

Definition isinf (x : t) : bool :=
  match x with S754_infinity _ => true | _ => false end.

Definition isfinite (x : t) : bool :=
  match x with S754_zero _ | S754_finite _ _ _ => true | _ => false end.

Definition opp : t -> t := SFopp.
Definition sqrt : t -> t := SFsqrt 53 1024.

(** A summation from the left, starting from +0.  [ndarray.sum()] of
    numpy adds in blocks and in pairs, so on a long column its rounding
    need not be this one: what is stated about the column mean is
    stated for a summation routine left open (see [mean_with]), and
    this one serves where a column is evaluated. *)
Definition sum (xs : list t) : t := fold_left add xs zero.

End F64.

(** ** pandas: Series *)

(** A float64 series: row labels with their values, in row order. *)
Definition Series : Type := list (nat * F64.t).

Definition s_index (s : Series) : list nat := map fst s.
Definition s_values (s : Series) : list F64.t := map snd s.

(** [Series.mean()] with the default [skipna=True]: missing values are
    replaced by 0 for the sum and left out of the count; an infinity is an
    ordinary value and takes part in the sum.  The sum is the library's
    ([ndarray.sum]), and the order in which that routine adds is its
    own: [np_sum] stands for it. *)
Definition mean_with (np_sum : list F64.t -> F64.t) (s : Series) : F64.t :=
  let values := map (fun x => if F64.isnan x then F64.zero else x) (s_values s) in
  let count := List.length (filter (fun x => negb (F64.isnan x)) (s_values s)) in
  if Nat.eqb count 0 then F64.nan
  else F64.div (np_sum values) (F64.of_Z (Z.of_nat count)).

(** [Series.fillna(value)] *)
Definition fillna (value : F64.t) (s : Series) : Series :=
  map (fun r => (fst r, if F64.isnan (snd r) then value else snd r)) s.

(** [Series.replace([np.inf, -np.inf], np.nan)] *)
Definition replace_inf_nan (s : Series) : Series :=
  map (fun r => (fst r, if F64.isinf (snd r) then F64.nan else snd r)) s.

(** [Series.dropna()] *)
Definition dropna (s : Series) : Series :=
  filter (fun r => negb (F64.isnan (snd r))) s.

(** Lines 28 and 29 of the script, one definition per statement. *)
Definition target_step_a_with (np_sum : list F64.t -> F64.t) (y : Series)
  : Series := fillna (mean_with np_sum y) y.
Definition target_step_b (y : Series) : Series := dropna (replace_inf_nan y).
Definition clean_target_with (np_sum : list F64.t -> F64.t) (y : Series)
  : Series := target_step_b (target_step_a_with np_sum y).

(** The same with the sum taken from the left, one summation among
    those a library may use. *)
Definition mean (s : Series) : F64.t := mean_with F64.sum s.
Definition target_step_a (y : Series) : Series := target_step_a_with F64.sum y.
Definition clean_target (y : Series) : Series := clean_target_with F64.sum y.

(** ** pandas: DataFrame *)

(** A calendar date, as [Series.dt] exposes it. *)
Record date : Type := mkdate { year : Z; month : Z; day : Z }.

(** Days since 1970-01-01 in the proleptic Gregorian calendar. *)
Definition days_from_civil (d : date) : Z :=
  let y := if (month d <=? 2)%Z then (year d - 1)%Z else year d in
  let era := (y / 400)%Z in
  let yoe := (y - era * 400)%Z in
  let mp := if (month d >? 2)%Z then (month d - 3)%Z else (month d + 9)%Z in
  let doy := ((153 * mp + 2) / 5 + day d - 1)%Z in
  let doe := (yoe * 365 + yoe / 4 - yoe / 100 + doy)%Z in
  (era * 146097 + doe - 719468)%Z.

(** [Series.dt.weekday]: Monday is 0 and Sunday is 6. *)
Definition weekday (d : date) : Z := ((days_from_civil d + 3) mod 7)%Z.

(** A column with its dtype.  A missing value is NaN in a float64 column,
    [None] in an object column, and NaT ([None]) in a datetime64 column;
    an integer column has no missing value. *)
Inductive column : Type :=
| Float64 (xs : list F64.t)
| Int64 (xs : list Z)
| Int32 (xs : list Z)
| Object (xs : list (option string))
| Datetime64 (xs : list (option date)).

Definition col_length (c : column) : nat :=
  match c with
  | Float64 xs => List.length xs
  | Int64 xs => List.length xs
  | Int32 xs => List.length xs
  | Object xs => List.length xs
  | Datetime64 xs => List.length xs
  end.

(** [column.isna()] at row position [i]. *)
Definition cell_missing (c : column) (i : nat) : bool :=
  match c with
  | Float64 xs => match nth_error xs i with Some x => F64.isnan x | None => false end
  | Int64 xs => false
  | Int32 xs => false
  | Object xs => match nth_error xs i with Some None => true | _ => false end
  | Datetime64 xs => match nth_error xs i with Some None => true | _ => false end
  end.

Record DataFrame : Type := mkframe {
  index : list nat;
  columns : list (string * column)
}.

Definition names (df : DataFrame) : list string := map fst (columns df).
Definition nrows (df : DataFrame) : nat := List.length (index df).

(** Every column has one cell per row. *)
Definition rectangular (df : DataFrame) : bool :=
  forallb (fun kc => Nat.eqb (col_length (snd kc)) (nrows df)) (columns df).

Fixpoint lookup {V : Type} (k : string) (d : list (string * V)) : option V :=
  match d with
  | [] => None
  | (k', v) :: rest => if String.eqb k' k then Some v else lookup k rest
  end.

Definition has_key {V : Type} (k : string) (d : list (string * V)) : bool :=
  match lookup k d with Some _ => true | None => false end.

(** [d[k] = v] on an insertion-ordered dict: an existing key keeps its
    place, a new key goes to the end. *)
Fixpoint assign {V : Type} (k : string) (v : V) (d : list (string * V))
  : list (string * V) :=
  match d with
  | [] => [(k, v)]
  | (k', v') :: rest =>
      if String.eqb k' k then (k, v) :: rest else (k', v') :: assign k v rest
  end.

(** [df[k]] *)
Definition getitem (df : DataFrame) (k : string) : exc column :=
  match lookup k (columns df) with
  | Some c => ok c
  | None => raise (KeyError k)
  end.

(** [df[k] = c] *)
Definition setitem (df : DataFrame) (k : string) (c : column) : DataFrame :=
  mkframe (index df) (assign k c (columns df)).

(** [df.drop(ks, axis=1)]: every listed label has to be a column. *)
Definition drop (ks : list string) (df : DataFrame) : exc DataFrame :=
  match filter (fun k => negb (has_key k (columns df))) ks with
  | [] =>
      ok (mkframe (index df)
            (filter (fun kc => negb (existsb (String.eqb (fst kc)) ks)) (columns df)))
  | k :: _ => raise (KeyError k)
  end.

(** Positional selection of rows. *)
Definition take_list {A : Type} (ps : list nat) (xs : list A) : list A :=
  flat_map (fun p => match nth_error xs p with Some x => [x] | None => [] end) ps.

Definition take_column (ps : list nat) (c : column) : column :=
  match c with
  | Float64 xs => Float64 (take_list ps xs)
  | Int64 xs => Int64 (take_list ps xs)
  | Int32 xs => Int32 (take_list ps xs)
  | Object xs => Object (take_list ps xs)
  | Datetime64 xs => Datetime64 (take_list ps xs)
  end.

Definition take (ps : list nat) (df : DataFrame) : DataFrame :=
  mkframe (take_list ps (index df))
          (map (fun kc => (fst kc, take_column ps (snd kc))) (columns df)).

(** The positions at which label [l] occurs in an index, counted from [i]. *)
Fixpoint positions_from (i : nat) (l : nat) (idx : list nat) : list nat :=
  match idx with
  | [] => []
  | x :: rest =>
      (if Nat.eqb x l then [i] else []) ++ positions_from (S i) l rest
  end.

(** [df.loc[labels]]: the rows carrying each label, in the order of
    [labels]; a label that is not in the index is a KeyError. *)
Definition loc (df : DataFrame) (labels : list nat) : exc DataFrame :=
  if forallb (fun l => existsb (Nat.eqb l) (index df)) labels
  then ok (take (flat_map (fun l => positions_from 0 l (index df)) labels) df)
  else raise (KeyError "labels not in index").

(** The float64 view of a column that [mean], [fillna], [replace] and
    [dropna] work on; a column of strings or dates has no mean. *)
Definition float_values (c : column) : exc (list F64.t) :=
  match c with
  | Float64 xs => ok xs
  | Int64 xs => ok (map F64.of_Z xs)
  | Int32 xs => ok (map F64.of_Z xs)
  | Object _ => raise (TypeError "could not convert string to float")
  | Datetime64 _ => raise (TypeError "datetime64 target")
  end.

(** ** Drawing without replacement *)

Definition remove_at {A : Type} (i : nat) (xs : list A) : list A :=
  firstn i xs ++ skipn (S i) xs.

(** A generator is the list of raw numbers it is going to produce.
    [draw pool k raw] takes [k] elements out of [pool], each picked by the
    next raw number, and returns them with the rest of the generator. *)
Fixpoint draw (pool : list nat) (k : nat) (raw : list nat)
  : list nat * list nat :=
  match k with
  | 0 => ([], raw)
  | S k' =>
      match pool with
      | [] => ([], raw)
      | _ :: _ =>
          let i := hd 0 raw mod List.length pool in
          let '(rest, raw') := draw (remove_at i pool) k' (tl raw) in
          (nth i pool 0 :: rest, raw')
      end
  end.

(** [sklearn.utils.random.sample_without_replacement(n, k, rng)] *)
Definition sample_without_replacement (n k : nat) (raw : list nat)
  : list nat * list nat :=
  draw (seq 0 n) k raw.

(** [pd.read_csv]: the columns of the file under a fresh RangeIndex. *)
Definition read_csv (cols : list (string * column)) : DataFrame :=
  mkframe (seq 0 (match cols with [] => 0 | (_, c) :: _ => col_length c end)) cols.

(** [df.sample(frac=1.0, random_state=seed)]: all rows, in the order the
    seeded generator draws them. *)
Definition sample_all (raw : list nat) (df : DataFrame) : DataFrame :=
  take (fst (draw (seq 0 (nrows df)) (nrows df) raw)) df.

(** ** Target cleaning (lines 27 to 31) *)

Definition target_name : string := "Degerlendirme Puani".

Definition prepare_target (train : DataFrame) : exc (DataFrame * Series) :=
  c <- getitem train target_name ;;
  vs <- float_values c ;;
  let y := clean_target (combine (index train) vs) in
  X <- drop [target_name; "id"] train ;;
  X <- loc X (s_index y) ;;
  ok (X, y).

(** ** The model catalogue and the search spaces *)

(** A Python value used as a keyword argument or as a grid candidate: an
    integer literal, a decimal literal [digits * 10 ^ exp10], or a
    string. *)
Inductive pval : Type :=
| PInt (z : Z)
| PDec (digits exp10 : Z)
| PStr (s : string).

Definition params : Type := list (string * pval).
Definition grid : Type := list (string * list pval).

(** An unfitted regressor: the class and the keyword arguments of its
    constructor call. *)
Record regressor : Type := mkreg { cls : string; kwargs : params }.

(** Lines 74 to 80. *)
Definition models : list (string * (string * regressor)) :=
  [ ("1", ("XGBoost",
           mkreg "XGBRegressor"
             [("random_state", PInt 42); ("tree_method", PStr "hist");
              ("n_jobs", PInt (-1))]));
    ("2", ("Random Forest",
           mkreg "RandomForestRegressor"
             [("random_state", PInt 42); ("n_jobs", PInt (-1))]));
    ("3", ("Gradient Boosting",
           mkreg "GradientBoostingRegressor" [("random_state", PInt 42)]));
    ("4", ("SVR", mkreg "SVR" []));
    ("5", ("CatBoost",
           mkreg "CatBoostRegressor"
             [("random_state", PInt 42); ("verbose", PInt 0)])) ].

(** [str.lower()], on ASCII letters. *)
Definition lower_ascii (c : ascii) : ascii :=
  let n := nat_of_ascii c in
  if ((65 <=? n)%nat && (n <=? 90)%nat)%bool then ascii_of_nat (n + 32) else c.

Fixpoint lower (s : string) : string :=
  match s with
  | EmptyString => EmptyString
  | String c rest => String (lower_ascii c) (lower rest)
  end.

(** [str.split(sep)] for a one-character separator: always at least one
    piece, empty pieces kept, nothing trimmed. *)
Fixpoint split (sep : ascii) (s : string) : list string :=
  match s with
  | EmptyString => [EmptyString]
  | String c rest =>
      if Ascii.eqb c sep then EmptyString :: split sep rest
      else match split sep rest with
           | piece :: pieces => String c piece :: pieces
           | [] => [String c EmptyString]
           end
  end.

(** Lines 89 to 92. *)
Definition parse_selection (selected_models : string) : list string :=
  if String.eqb (lower selected_models) "all"
  then map fst models
  else split "," selected_models.

(** Lines 111 to 132. *)
Definition param_distributions (model_name : string) : grid :=
  let param_distributions :=
    [ ("regressor__n_estimators", [PInt 100; PInt 200; PInt 300]);
      ("regressor__max_depth", [PInt 3; PInt 5; PInt 7]) ] in
  if String.eqb model_name "XGBoost" then
    assign "regressor__learning_rate"
      [PDec 1 (-2); PDec 1 (-1); PDec 2 (-1)] param_distributions
  else if String.eqb model_name "Gradient Boosting" then
    assign "regressor__learning_rate"
      [PDec 1 (-2); PDec 1 (-1); PDec 2 (-1)] param_distributions
  else if String.eqb model_name "SVR" then
    [ ("regressor__C", [PDec 1 (-1); PInt 1; PInt 10]);
      ("regressor__kernel", [PStr "rbf"; PStr "linear"; PStr "poly"]);
      ("regressor__gamma",
       [PStr "scale"; PStr "auto"] ++ [PDec 1 (-1); PInt 1; PInt 10]) ]
  else if String.eqb model_name "CatBoost" then
    [ ("regressor__learning_rate", [PDec 1 (-2); PDec 1 (-1); PDec 2 (-1)]);
      ("regressor__depth", [PInt 3; PInt 5; PInt 7]);
      ("regressor__l2_leaf_reg", [PInt 1; PInt 3; PInt 5]) ]
  else param_distributions.

(** *** The grid as the specification words it *)

Inductive family : Type :=
| GradientBoostedTreesA      (* XGBoost *)
| RandomForest
| GradientBoostedTreesB      (* Gradient Boosting *)
| SupportVector
| NativeCategoricalBoosting. (* CatBoost *)

Inductive hyperparameter : Type :=
| EstimatorCount | MaxDepth | LearningRate
| RegularizationStrength | Kernel | KernelCoefficient
| TreeDepth | L2LeafRegularization.

Definition spec_default_grid : list (hyperparameter * list pval) :=
  [ (EstimatorCount, [PInt 100; PInt 200; PInt 300]);
    (MaxDepth, [PInt 3; PInt 5; PInt 7]) ].

Definition spec_grid (f : family) : list (hyperparameter * list pval) :=
  match f with
  | RandomForest => spec_default_grid
  | GradientBoostedTreesA | GradientBoostedTreesB =>
      spec_default_grid
      ++ [ (LearningRate, [PDec 1 (-2); PDec 1 (-1); PDec 2 (-1)]) ]
  | SupportVector =>
      [ (RegularizationStrength, [PDec 1 (-1); PInt 1; PInt 10]);
        (Kernel, [PStr "rbf"; PStr "linear"; PStr "polynomial"]);
        (KernelCoefficient,
         [PStr "scale"; PStr "auto"; PDec 1 (-1); PInt 1; PInt 10]) ]
  | NativeCategoricalBoosting =>
      [ (LearningRate, [PDec 1 (-2); PDec 1 (-1); PDec 2 (-1)]);
        (TreeDepth, [PInt 3; PInt 5; PInt 7]);
        (L2LeafRegularization, [PInt 1; PInt 3; PInt 5]) ]
  end.

(** How the names of the code read in the words of the specification. *)
Definition family_name (f : family) : string :=
  match f with
  | GradientBoostedTreesA => "XGBoost"
  | RandomForest => "Random Forest"
  | GradientBoostedTreesB => "Gradient Boosting"
  | SupportVector => "SVR"
  | NativeCategoricalBoosting => "CatBoost"
  end.

Definition hyperparameter_of_key (k : string) : option hyperparameter :=
  if String.eqb k "regressor__n_estimators" then Some EstimatorCount
  else if String.eqb k "regressor__max_depth" then Some MaxDepth
  else if String.eqb k "regressor__learning_rate" then Some LearningRate
  else if String.eqb k "regressor__C" then Some RegularizationStrength
  else if String.eqb k "regressor__kernel" then Some Kernel
  else if String.eqb k "regressor__gamma" then Some KernelCoefficient
  else if String.eqb k "regressor__depth" then Some TreeDepth
  else if String.eqb k "regressor__l2_leaf_reg" then Some L2LeafRegularization
  else None.

(** scikit-learn spells the polynomial kernel ["poly"]. *)
Definition spec_value (v : pval) : pval :=
  match v with
  | PStr s => if String.eqb s "poly" then PStr "polynomial" else v
  | _ => v
  end.

Definition read_grid (g : grid) : list (option hyperparameter * list pval) :=
  map (fun kv => (hyperparameter_of_key (fst kv), map spec_value (snd kv))) g.

(** ** scikit-learn: the randomized search *)

(** [sorted(grid.items())] *)
Fixpoint insert_item {V : Type} (kv : string * V) (d : list (string * V))
  : list (string * V) :=
  match d with
  | [] => [kv]
  | kv' :: rest =>
      if String.leb (fst kv) (fst kv') then kv :: d
      else kv' :: insert_item kv rest
  end.

Definition sorted_items {V : Type} (d : list (string * V)) : list (string * V) :=
  fold_right insert_item [] d.

(** [len(ParameterGrid(grid))] *)
Definition grid_size (g : grid) : nat :=
  fold_right (fun kv n => List.length (snd kv) * n) 1 g.

(** [ParameterGrid(grid)[ind]]: the index is decoded in mixed radix over
    the reversed sorted items, so that the last key cycles fastest. *)
Fixpoint grid_decode (items : list (string * list pval)) (ind : nat) : params :=
  match items with
  | [] => []
  | (key, v_list) :: rest =>
      let n := List.length v_list in
      (key, nth (ind mod n) v_list (PInt 0)) :: grid_decode rest (ind / n)
  end.

Definition grid_getitem (g : grid) (ind : nat) : params :=
  grid_decode (rev (sorted_items g)) ind.

(** The keyword arguments of [RandomizedSearchCV] that the script can
    set; [random_state] is [None] unless given. *)
Record search_args : Type := mksearch {
  n_iter : nat;
  cv : nat;
  scoring : string;
  n_jobs : Z;
  verbose : Z;
  random_state : option Z
}.

(** Lines 135 to 147: no [random_state] is passed. *)
Definition script_search_args : search_args :=
  mksearch 10 5 "neg_mean_squared_error" (-1) 2 None.

(** [candidate] scores strictly better than [incumbent]; a NaN score is
    worse than any number. *)
Definition improves (incumbent candidate : F64.t) : bool :=
  if F64.isnan candidate then false
  else if F64.isnan incumbent then true
  else F64.ltb incumbent candidate.

(** [best_index_]: the first candidate of rank 1. *)
Fixpoint best_from (best : params) (score : F64.t)
    (scored : list (params * F64.t)) : params :=
  match scored with
  | [] => best
  | (p, s) :: rest =>
      if improves score s then best_from p s rest else best_from best score rest
  end.

Definition best_of (scored : list (params * F64.t)) : option params :=
  match scored with
  | [] => None
  | (p, s) :: rest => Some (best_from p s rest)
  end.

(** ** scikit-learn: what [StackingRegressor.fit] checks first *)

Fixpoint has_dunder (s : string) : bool :=
  match s with
  | String "_" (String "_" _) => true
  | String _ rest => has_dunder rest
  | EmptyString => false
  end.

Fixpoint unique (xs : list string) : bool :=
  match xs with
  | [] => true
  | x :: rest => negb (existsb (String.eqb x) rest) && unique rest
  end.

Definition stacking_constructor_arguments : list string :=
  ["estimators"; "final_estimator"; "cv"; "n_jobs"; "passthrough"; "verbose"].

(** [_validate_estimators] followed by [_validate_names]. *)
Definition validate_estimators {E : Type} (estimators : list (string * E))
  : exc unit :=
  let names := map fst estimators in
  if Nat.eqb (List.length estimators) 0 then
    raise (ValueError "Invalid 'estimators' attribute, 'estimators' should be a non-empty list of (string, estimator) tuples.")
  else if negb (unique names) then
    raise (ValueError "Names provided are not unique")
  else if existsb (fun n => existsb (String.eqb n) stacking_constructor_arguments) names then
    raise (ValueError "Estimator names conflict with constructor arguments")
  else if existsb has_dunder names then
    raise (ValueError "Estimator names must not contain __")
  else ok tt.

(** ** The process: console, files, and the global generator *)

(** What a delimited file holds: a header and, under each name of the
    header, a column of values.  It has no row labels of its own. *)
Definition csv : Type := list (string * column).

(** A console line.  The numbers the libraries compute are kept as values,
    not formatted. *)
Inductive line : Type :=
| Text (s : string)
| BestParameters (p : params)
| BestCrossValidationRMSE (x : F64.t)
| TrainingTime
| ValidationRMSE (x : F64.t)
| StackingTrainingTime
| StackingValidationRMSE (x : F64.t).

(** [files] are the delimited files the script writes; the working
    files a library leaves behind while it fits are not part of it. *)
Record world : Type := mkworld {
  console : list line;
  files : list (string * csv);
  numpy_global : list nat      (* the generator behind [np.random] *)
}.

(** A statement of the script: it changes the world and either yields a
    value or raises; what was printed or written before an exception
    stays. *)
Definition M (A : Type) : Type := world -> world * exc A.

Definition ret {A : Type} (a : A) : M A := fun w => (w, ok a).

Definition seq_bind {A B : Type} (c : M A) (k : A -> M B) : M B :=
  fun w =>
    match c w with
    | (w', inl e) => (w', inl e)
    | (w', inr a) => k a w'
    end.

Definition lift {A : Type} (c : exc A) : M A := fun w => (w, c).

Notation "x <~ c ;; k" := (seq_bind c (fun x => k))
  (at level 61, c at next level, right associativity).
Notation "' pat <~ c ;; k" := (seq_bind c (fun x => match x with pat => k end))
  (at level 61, pat pattern, c at next level, right associativity).
Notation "c ;;; k" := (seq_bind c (fun _ => k))
  (at level 61, right associativity).

Definition print (l : line) : M unit :=
  fun w => (mkworld (console w ++ [l]) (files w) (numpy_global w), ok tt).

(** [DataFrame.to_csv(path, index=index)]: the file is created or
    overwritten; the row labels go into a first, unnamed column when
    [index] is set and are left out otherwise. *)
Definition to_csv (path : string) (index_too : bool) (df : DataFrame) : M unit :=
  fun w =>
    let content :=
      if index_too
      then (EmptyString, Int64 (map Z.of_nat (index df))) :: columns df
      else columns df in
    (mkworld (console w) (assign path content (files w)) (numpy_global w), ok tt).

(** [for x in xs: acc = body(x, acc)] *)
Fixpoint for_each {A S : Type} (body : A -> S -> M S) (xs : list A) (acc : S)
  : M S :=
  match xs with
  | [] => ret acc
  | x :: rest => acc' <~ body x acc ;; for_each body rest acc'
  end.

(** ** The script *)

(** A single cell, as the conversion routines of pandas see it. *)
Inductive scalar : Type :=
| SFloat (x : F64.t)
| SInt (z : Z)
| SStr (s : string)
| SDate (d : date).

Definition newline : string := String (ascii_of_nat 10) EmptyString.

(** The two stages of every [Pipeline] the script builds: the shared
    column transformer, given by its two column lists, and a regressor. *)
Record pipeline : Type := mkpipeline {
  numeric_columns : list string;
  categorical_columns : list string;
  pipeline_regressor : regressor
}.

Section Script.

(** *** What the libraries compute *)

(** A fitted model. *)
Variable estimator : Type.
(** How [pd.to_datetime] reads the values of a column as dates, row by
    row; the format is inferred from the column as a whole, so the
    reading of one value depends on the other values.  [None] is what
    [errors='coerce'] turns a value that cannot be read into. *)
Variable to_datetime_column : column -> list (option date).
(** [str(value)] *)
Variable python_str : scalar -> string.
(** The raw output of [np.random.RandomState(seed)]. *)
Variable RandomState : Z -> list nat.
(** [train_test_split(X, y, test_size=0.2, random_state=seed)] *)
Variable train_test_split :
  DataFrame -> Series -> Z -> (DataFrame * DataFrame) * (Series * Series).
(** The mean cross-validated score of one candidate. *)
Variable cross_val_score : pipeline -> params -> DataFrame -> Series -> F64.t.
(** Fitting a pipeline with given parameters. *)
Variable fit_pipeline : pipeline -> params -> DataFrame -> Series -> exc estimator.
(** Fitting the stacked ensemble once its estimators are accepted. *)
Variable fit_stacking :
  list (string * estimator) -> DataFrame -> Series -> exc estimator.
Variable predict : estimator -> DataFrame -> exc (list F64.t).
Variable mean_squared_error : Series -> list F64.t -> F64.t.

(** *** Date columns (lines 34 to 41) *)

(** [pd.to_datetime(column, errors='coerce')]: a datetime64 column with
    one date per row; a missing value is NaT, every other value is what
    pandas reads it as, NaT where it reads nothing. *)
Definition to_datetime (c : column) : column :=
  Datetime64
    (map (fun i => if cell_missing c i then None
                   else nth i (to_datetime_column c) None)
         (seq 0 (col_length c))).

Definition is_some {A : Type} (o : option A) : bool :=
  match o with Some _ => true | None => false end.

(** [column.dt.<field>]: 32-bit integers when every date is present,
    floats with NaN for the missing dates otherwise; only a datetime
    column has [.dt]. *)
Definition dt (field : date -> Z) (c : column) : exc column :=
  match c with
  | Datetime64 xs =>
      if forallb is_some xs
      then ok (Int32 (map (fun o => match o with
                                    | Some d => field d
                                    | None => 0%Z
                                    end) xs))
      else ok (Float64 (map (fun o => match o with
                                      | Some d => F64.of_Z (field d)
                                      | None => F64.nan
                                      end) xs))
  | _ => raise (TypeError "Can only use .dt accessor with datetimelike values")
  end.

(** The body of the inner loop, for one table. *)
Definition date_features (col : string) (df : DataFrame) : exc DataFrame :=
  c <- getitem df col ;;
  let df := setitem df col (to_datetime c) in
  c <- getitem df col ;;
  v <- dt year c ;;
  let df := setitem df (col ++ "_year") v in
  c <- getitem df col ;;
  v <- dt month c ;;
  let df := setitem df (col ++ "_month") v in
  c <- getitem df col ;;
  v <- dt weekday c ;;
  let df := setitem df (col ++ "_weekday") v in
  drop [col] df.

Definition date_columns : list string := ["Dogum Tarihi"].

(** [for col in date_columns: for df in [X, test]: ...] *)
Fixpoint decompose_dates (cols : list string) (tables : DataFrame * DataFrame)
  : exc (DataFrame * DataFrame) :=
  match cols with
  | [] => ok tables
  | col :: rest =>
      X <- date_features col (fst tables) ;;
      test <- date_features col (snd tables) ;;
      decompose_dates rest (X, test)
  end.

(** *** Column classes (lines 44 to 48) *)

Definition is_object (c : column) : bool :=
  match c with Object _ => true | _ => false end.

Definition is_number (c : column) : bool :=
  match c with Int64 _ | Float64 _ => true | _ => false end.

(** [is_object] is [include=['object']] and [is_number] is
    [include=['int64', 'float64']]: a 32-bit integer column is in
    neither.

    [df.select_dtypes(include=...).columns] *)
Definition select_dtypes (include : column -> bool) (df : DataFrame)
  : list string :=
  map fst (filter (fun kc => include (snd kc)) (columns df)).

(** [column.astype(str)] *)
Definition astype_str (c : column) : column :=
  match c with
  | Float64 xs => Object (map (fun x => Some (python_str (SFloat x))) xs)
  | Int64 xs => Object (map (fun z => Some (python_str (SInt z))) xs)
  | Int32 xs => Object (map (fun z => Some (python_str (SInt z))) xs)
  | Object xs =>
      Object (map (fun o => match o with
                            | Some s => Some s
                            | None => Some "nan"
                            end) xs)
  | Datetime64 xs =>
      Object (map (fun o => match o with
                            | Some d => Some (python_str (SDate d))
                            | None => Some "NaT"
                            end) xs)
  end.

(** [df[cols] = df[cols].astype(str)] *)
Fixpoint stringify (cols : list string) (df : DataFrame) : exc DataFrame :=
  match cols with
  | [] => ok df
  | col :: rest =>
      c <- getitem df col ;;
      stringify rest (setitem df col (astype_str c))
  end.

(** *** The randomized search (lines 139 to 151) *)

(** [ParameterSampler(grid, n_iter, random_state)] for a grid of lists:
    indices into the grid drawn without replacement, from a generator
    of its own when a seed is given and from the global one
    otherwise. *)
Definition ParameterSampler (g : grid) (args : search_args) : M (list params) :=
  fun w =>
    let size := grid_size g in
    let n := Nat.min (n_iter args) size in
    match random_state args with
    | Some seed =>
        (w, ok (map (grid_getitem g)
                  (fst (sample_without_replacement size n (RandomState seed)))))
    | None =>
        let '(drawn, raw) := sample_without_replacement size n (numpy_global w) in
        (mkworld (console w) (files w) raw, ok (map (grid_getitem g) drawn))
    end.

Record fitted_search : Type := mkfitted {
  best_params_ : params;
  best_score_ : F64.t;
  best_estimator_ : estimator
}.

(** The search proper: the sampled candidates are scored and the best
    one is chosen ([best_params_]). *)
Definition search_best (model : pipeline) (g : grid) (args : search_args)
    (X : DataFrame) (y : Series) : M (option params) :=
  candidates <~ ParameterSampler g args ;;
  ret (best_of (map (fun p => (p, cross_val_score model p X y)) candidates)).

(** [RandomizedSearchCV(model, grid, ...).fit(X, y)]: the search, then
    the refit of the pipeline with the best parameters. *)
Definition random_search_fit (model : pipeline) (g : grid) (args : search_args)
    (X : DataFrame) (y : Series) : M fitted_search :=
  best <~ search_best model g args X y ;;
  match best with
  | None => lift (raise (ValueError "No fits were performed."))
  | Some best =>
      fitted <~ lift (fit_pipeline model best X y) ;;
      ret (mkfitted best (cross_val_score model best X y) fitted)
  end.

(** *** The loop over the selection (lines 95 to 174) *)

Definition invalid_message (model_num : string) : line :=
  Text ("Invalid model number: " ++ model_num ++ ", skipping.").

Definition model_header (model_name : string) : line :=
  Text (newline ++ "Model: " ++ model_name).

(** One turn of the loop: [base_models] comes in and goes out. *)
Definition loop_body (numeric categorical : list string)
    (X_train X_val : DataFrame) (y_train y_val : Series)
    (model_num : string) (base_models : list (string * estimator))
  : M (list (string * estimator)) :=
  match lookup model_num models with
  | None =>
      print (invalid_message model_num) ;;;
      ret base_models
  | Some (model_name, regressor) =>
      let model := mkpipeline numeric categorical regressor in
      let param_distributions := param_distributions model_name in
      print (model_header model_name) ;;;
      random_search <~ random_search_fit model param_distributions
                         script_search_args X_train y_train ;;
      print (BestParameters (best_params_ random_search)) ;;;
      print (BestCrossValidationRMSE
               (F64.sqrt (F64.opp (best_score_ random_search)))) ;;;
      print TrainingTime ;;;
      val_predictions <~ lift (predict (best_estimator_ random_search) X_val) ;;
      let mse := mean_squared_error y_val val_predictions in
      print (ValidationRMSE (F64.sqrt mse)) ;;;
      ret (base_models ++ [(model_name, best_estimator_ random_search)])
  end.

Definition selection_loop (numeric categorical : list string)
    (X_train X_val : DataFrame) (y_train y_val : Series)
    (selected_models : list string)
  : M (list (string * estimator)) :=
  for_each (loop_body numeric categorical X_train X_val y_train y_val)
    selected_models [].

(** *** Stacking and submission (lines 176 to 205) *)

Record StackingRegressor : Type := mkstacking {
  estimators : list (string * estimator);
  final_estimator : string;
  n_splits : nat
}.

(** [StackingRegressor.fit] *)
Definition stacking_fit (s : StackingRegressor) (X : DataFrame) (y : Series)
  : exc estimator :=
  _ <- validate_estimators (estimators s) ;;
  fit_stacking (estimators s) X y.

Definition stacking_stage (base_models : list (string * estimator))
    (X_train X_val : DataFrame) (y_train y_val : Series) (test : DataFrame)
  : M unit :=
  let stacking_regressor := mkstacking base_models "LinearRegression" 5 in
  fitted <~ lift (stacking_fit stacking_regressor X_train y_train) ;;
  print StackingTrainingTime ;;;
  val_predictions <~ lift (predict fitted X_val) ;;
  let mse := mean_squared_error y_val val_predictions in
  print (StackingValidationRMSE (F64.sqrt mse)) ;;;
  features <~ lift (drop ["id"] test) ;;
  test_predictions <~ lift (predict fitted features) ;;
  ids <~ lift (getitem test "id") ;;
  let submission :=
    mkframe (index test) [("id", ids); (target_name, Float64 test_predictions)] in
  to_csv "submission_stacking.csv" false submission ;;;
  print (Text "Stacking Regressor predictions saved.").

(** *** The whole script *)

Definition menu : list line :=
  Text "Available Models:"
  :: map (fun kv => Text (fst kv ++ ": " ++ fst (snd kv))) models.

Definition prompt : line :=
  Text "Please enter the numbers of the models you want to use, separated by commas (or type 'all'): ".

(** [train_csv] and [test_csv] are the two input files and [stdin] the
    line typed at the prompt. *)
Definition main (train_csv test_csv : list (string * column)) (stdin : string)
  : M unit :=
  let train := read_csv train_csv in
  let test := read_csv test_csv in
  let train := sample_all (RandomState 42) train in
  '(X, y) <~ lift (prepare_target train) ;;
  '(X, test) <~ lift (decompose_dates date_columns (X, test)) ;;
  let categorical_columns := select_dtypes is_object X in
  let numeric_columns := select_dtypes is_number X in
  X <~ lift (stringify categorical_columns X) ;;
  test <~ lift (stringify categorical_columns test) ;;
  let '((X_train, X_val), (y_train, y_val)) := train_test_split X y 42 in
  for_each (fun l _ => print l) (menu ++ [prompt]) tt ;;;
  let selected_models := parse_selection stdin in
  base_models <~ selection_loop numeric_columns categorical_columns
                   X_train X_val y_train y_val selected_models ;;
  stacking_stage base_models X_train X_val y_train y_val test.

End Script.

(** ** Vocabulary of the statements *)

(** How many rows of a series have a value of a given kind. *)
Definition count_where (kind : F64.t -> bool) (s : Series) : nat :=
  List.length (filter (fun r => kind (snd r)) s).

(** The number in a numeric column at row position [i] is the integer [z],
    stored as an integer or as the float of the same value. *)
Definition cell_holds (c : column) (i : nat) (z : Z) : Prop :=
  match c with
  | Float64 xs => nth_error xs i = Some (F64.of_Z z)
  | Int64 xs => nth_error xs i = Some z
  | Int32 xs => nth_error xs i = Some z
  | _ => False
  end.

(** A column of numbers, whatever their width. *)
Definition is_numeric_dtype (c : column) : bool :=
  match c with
  | Float64 _ | Int64 _ | Int32 _ => true
  | _ => false
  end.

(** The dates a datetime column holds. *)
Definition dates_of (c : column) : list (option date) :=
  match c with Datetime64 xs => xs | _ => [] end.

(** [derived] is the numeric column of one date field of [dates]: as long
    as [dates], missing exactly where the date is missing, and holding the
    field of the date elsewhere. *)
Definition field_column (field : date -> Z) (dates : list (option date))
    (derived : column) : Prop :=
  is_numeric_dtype derived = true
  /\ col_length derived = List.length dates
  /\ forall i,
       match nth_error dates i with
       | Some None => cell_missing derived i = true
       | Some (Some d) => cell_missing derived i = false /\ cell_holds derived i (field d)
       | None => True
       end.

(** The names of the columns derived from the date column [col]. *)
Definition derived_names (col : string) : list string :=
  [(col ++ "_year")%string; (col ++ "_month")%string; (col ++ "_weekday")%string].

(** The cell of a derived column for the date of its row: missing when
    there is no date, the field of the date otherwise. *)
Definition field_cell (field : date -> Z) (d : option date) (derived : column)
    (i : nat) : Prop :=
  match d with
  | None => cell_missing derived i = true
  | Some d => cell_missing derived i = false /\ cell_holds derived i (field d)
  end.

(** [after] is [before] with its date column [col] decomposed: same rows;
    [col] gone; the three derived columns present, numeric, one cell per
    row; in a row whose value is missing, or is one that [parse] reads
    nothing from, the three cells are missing, and in a row that [parse]
    reads the date [d] from they hold the year, the month and the
    weekday of [d]; every other column as it was; and, when the derived
    names are new, the columns are the old ones without [col] followed
    by the three derived ones. *)
Definition decomposed (parse : column -> list (option date)) (col : string)
    (before after : DataFrame) : Prop :=
  exists c y m w,
    lookup col (columns before) = Some c
    /\ index after = index before
    /\ lookup col (columns after) = None
    /\ lookup (col ++ "_year") (columns after) = Some y
    /\ lookup (col ++ "_month") (columns after) = Some m
    /\ lookup (col ++ "_weekday") (columns after) = Some w
    /\ (is_numeric_dtype y = true /\ col_length y = col_length c)
    /\ (is_numeric_dtype m = true /\ col_length m = col_length c)
    /\ (is_numeric_dtype w = true /\ col_length w = col_length c)
    /\ (forall i, i < col_length c ->
          (cell_missing c i = true ->
           cell_missing y i = true /\ cell_missing m i = true
           /\ cell_missing w i = true)
          /\ (cell_missing c i = false ->
              field_cell year (nth i (parse c) None) y i
              /\ field_cell month (nth i (parse c) None) m i
              /\ field_cell weekday (nth i (parse c) None) w i))
    /\ (forall k, ~ In k (col :: derived_names col) ->
                  lookup k (columns after) = lookup k (columns before))
    /\ ((forall k, In k (derived_names col) -> ~ In k (names before)) ->
        names after
        = filter (fun k => negb (String.eqb k col)) (names before)
          ++ derived_names col).

(** The names a selection retains, in the order entered. *)
Definition retained_names (selected_models : list string) : list string :=
  flat_map (fun model_num =>
              match lookup model_num models with
              | Some (model_name, _) => [model_name]
              | None => []
              end) selected_models.

Fixpoint starts_with (prefix s : string) : bool :=
  match prefix, s with
  | EmptyString, _ => true
  | String a prefix', String b s' => Ascii.eqb a b && starts_with prefix' s'
  | String _ _, EmptyString => false
  end.

(** The line that announces the search of one model. *)
Definition is_model_header (l : line) : bool :=
  match l with
  | Text s => starts_with (newline ++ "Model: ") s
  | _ => false
  end.

(** The candidates of the XGBoost search for given drawn grid indices. *)
Definition xgboost_candidates (drawn : list nat) : list params :=
  map (grid_getitem (param_distributions "XGBoost")) drawn.

(** The world after the lines [ls] have been printed. *)
Definition say (ls : list line) (w : world) : world :=
  mkworld (console w ++ ls) (files w) (numpy_global w).

(** What the first check of [StackingRegressor.fit] raises on an empty
    list of estimators. *)
Definition no_estimators : exn :=
  ValueError "Invalid 'estimators' attribute, 'estimators' should be a non-empty list of (string, estimator) tuples.".

(** [sep.join(pieces)] *)
Fixpoint join (sep : string) (pieces : list string) : string :=
  match pieces with
  | [] => EmptyString
  | [piece] => piece
  | piece :: rest => (piece ++ sep ++ join sep rest)%string
  end.

(** Whether a character occurs in a string. *)
Fixpoint occurs (c : ascii) (s : string) : bool :=
  match s with
  | EmptyString => false
  | String c' rest => Ascii.eqb c' c || occurs c rest
  end.

(** The model names of the catalogue, in the order of its keys. *)
Definition catalogue_names : list string :=
  map (fun entry => fst (snd entry)) models.

(** The columns of the training table that are features. *)
Definition feature_columns (train : DataFrame) : list (string * column) :=
  filter (fun kc => negb (existsb (String.eqb (fst kc)) [target_name; "id"]))
         (columns train).

(** What the stacking fit raises on estimators that share a name. *)
Definition names_not_unique : exn := ValueError "Names provided are not unique".

(** The submission the script writes for a test table. *)
Definition submission_path : string := "submission_stacking.csv".

(** ** Sample inputs *)

Module Sample.

Definition estimator : Type := params.

Definition to_datetime_column (c : column) : list (option date) :=
  match c with
  | Object xs =>
      map (fun o => match o with
                    | Some s =>
                        if String.eqb s "2000-02-29"
                        then Some (mkdate 2000 2 29) else None
                    | None => None
                    end) xs
  | _ => []
  end.

Definition python_str (v : scalar) : string := "?".
Definition RandomState (seed : Z) : list nat := [2; 0; 1].

Definition train_test_split (X : DataFrame) (y : Series) (seed : Z)
  : (DataFrame * DataFrame) * (Series * Series) := ((X, X), (y, y)).

Definition cross_val_score (m : pipeline) (p : params) (X : DataFrame)
    (y : Series) : F64.t := F64.zero.

Definition fit_pipeline (m : pipeline) (p : params) (X : DataFrame)
    (y : Series) : exc estimator := ok p.

Definition fit_stacking (ests : list (string * estimator)) (X : DataFrame)
    (y : Series) : exc estimator := ok [].

Definition predict (e : estimator) (X : DataFrame) : exc (list F64.t) :=
  ok (map (fun _ => F64.zero) (index X)).

Definition mean_squared_error (y : Series) (p : list F64.t) : F64.t := F64.zero.

Definition three : F64.t := F64.of_Z 3.

Definition train_csv : list (string * column) :=
  [ ("id", Int64 [10; 11; 12; 13]%Z);
    ("Dogum Tarihi",
     Object [Some "2000-02-29"; Some "yesterday"; None; Some "2000-02-29"]);
    ("Sehir", Object [Some "Ankara"; None; Some "Izmir"; Some "Ankara"]);
    ("Yas", Float64 [F64.of_Z 24; F64.nan; F64.of_Z 31; F64.of_Z 19]);
    ("Degerlendirme Puani",
     Float64 [three; F64.nan; S754_infinity false; F64.of_Z 4]) ].

Definition test_csv : list (string * column) :=
  [ ("id", Int64 [20; 21]%Z);
    ("Dogum Tarihi", Object [Some "2000-02-29"; Some "2000-02-29"]);
    ("Sehir", Object [Some "Bursa"; Some "Ankara"]);
    ("Yas", Float64 [F64.of_Z 40; F64.of_Z 22]) ].

(** 1,000 targets: one missing, one infinite, 998 equal to 3. *)
Definition thousand_targets : Series :=
  combine (seq 0 1000) (F64.nan :: S754_infinity true :: repeat three 998).

Definition fresh_world : world := mkworld [] [] [].

(** A training file that has the target but no identifier. *)
Definition train_csv_without_id : list (string * column) :=
  [ ("Yas", Float64 [F64.of_Z 24; F64.of_Z 31]);
    ("Degerlendirme Puani", Float64 [three; F64.of_Z 4]) ].

(** A clean target, one with an infinity, and one without a number. *)
Definition clean_targets : Series :=
  [(0, three); (1, F64.of_Z 4); (2, three)].

Definition targets_with_infinity : Series :=
  [(0, three); (1, F64.nan); (2, S754_infinity false); (3, F64.of_Z 4)].

Definition targets_with_gap : Series :=
  [(0, three); (1, F64.nan); (2, F64.of_Z 5)].

Definition targets_without_number : Series :=
  [(0, F64.nan); (1, S754_infinity true); (2, F64.nan)].

End Sample.

(** * Properties *)

(** ** Target cleaning *)

Section TargetCleaning.

Lemma kinds_partition (x : F64.t) :
  (if F64.isnan x then 1 else 0) + (if F64.isinf x then 1 else 0)
  + (if F64.isfinite x then 1 else 0) = 1.
Proof. destruct x; reflexivity. Qed.

Lemma add_keeps_nonfinite (a b : F64.t) :
  F64.isfinite a = false -> F64.isfinite (F64.add a b) = false.
Proof.
  destruct a as [sa|sa| |sa ma ea]; try discriminate; intros _;
    destruct b as [sb|sb| |sb mb eb]; try reflexivity;
    destruct sa, sb; reflexivity.
Qed.

Lemma add_infinity_nonfinite (a b : F64.t) :
  F64.isinf b = true -> F64.isfinite (F64.add a b) = false.
Proof.
  destruct b as [sb|sb| |sb mb eb]; try discriminate; intros _;
    destruct a as [sa|sa| |sa ma ea]; try reflexivity;
    destruct sa, sb; reflexivity.
Qed.

Lemma div_keeps_nonfinite (a b : F64.t) :
  F64.isfinite a = false -> F64.isfinite (F64.div a b) = false.
Proof.
  destruct a as [sa|sa| |sa ma ea]; try discriminate; intros _;
    destruct b as [sb|sb| |sb mb eb]; reflexivity.
Qed.

Lemma fold_add_from_nonfinite (xs : list F64.t) :
  forall acc, F64.isfinite acc = false ->
              F64.isfinite (fold_left F64.add xs acc) = false.
Proof.
  induction xs as [|x xs IH]; intros acc Hacc; simpl.
  - exact Hacc.
  - apply IH, add_keeps_nonfinite, Hacc.
Qed.

Lemma fold_add_with_infinity (xs : list F64.t) :
  forall acc, existsb F64.isinf xs = true ->
              F64.isfinite (fold_left F64.add xs acc) = false.
Proof.
  induction xs as [|x xs IH]; intros acc Hex; simpl in *.
  - discriminate.
  - destruct (F64.isinf x) eqn:Hx.
    + apply fold_add_from_nonfinite, add_infinity_nonfinite, Hx.
    + apply IH, Hex.
Qed.

(** A column that holds an infinity has no finite mean. *)
Lemma mean_with_infinity (y : Series) :
  0 < count_where F64.isinf y -> F64.isfinite (mean y) = false.
Proof.
  intros Hinf. unfold mean, mean_with.
  assert (Hex : existsb F64.isinf
                  (map (fun x => if F64.isnan x then F64.zero else x) (s_values y))
                = true).
  { unfold count_where, s_values in *.
    induction y as [|[l x] y IH]; simpl in *; [lia|].
    destruct x; simpl in *; try reflexivity; apply IH; lia. }
  destruct (Nat.eqb _ 0); [reflexivity|].
  apply div_keeps_nonfinite, fold_add_with_infinity, Hex.
Qed.

Lemma count_where_partition (y : Series) :
  count_where F64.isnan y + count_where F64.isinf y
  + count_where F64.isfinite y = List.length y.
Proof.
  unfold count_where.
  induction y as [|[l x] y IH]; simpl; [reflexivity|].
  destruct x; simpl; lia.
Qed.

(** What survives the two steps for a given fill value: the finite
    values, and the missing ones when the fill value is finite. *)
Lemma cleaned_length (m : F64.t) (y : Series) :
  List.length (target_step_b (fillna m y))
  = count_where F64.isfinite y
    + (if F64.isfinite m then count_where F64.isnan y else 0).
Proof.
  unfold target_step_b, dropna, replace_inf_nan, fillna, count_where.
  induction y as [|[l x] y IH]; simpl.
  - destruct (F64.isfinite m); reflexivity.
  - destruct x; simpl; try (rewrite IH; lia).
    destruct m; simpl in *; rewrite IH; lia.
Qed.

Lemma step_b_app (s1 s2 : Series) :
  target_step_b (s1 ++ s2) = target_step_b s1 ++ target_step_b s2.
Proof.
  unfold target_step_b, dropna, replace_inf_nan.
  rewrite map_app, filter_app. reflexivity.
Qed.

Lemma nth_error_split_at {A : Type} (xs : list A) (i : nat) (x : A) :
  nth_error xs i = Some x -> xs = firstn i xs ++ x :: skipn (S i) xs.
Proof.
  revert i. induction xs as [|a xs IH]; intros [|i] H; simpl in *;
    try discriminate.
  - injection H as ->. reflexivity.
  - f_equal. apply IH, H.
Qed.

(** Turning the infinities into missing values and dropping the missing
    rows keeps exactly the rows with a finite value, as they are. *)
Lemma step_b_keeps_finite (s : Series) :
  target_step_b s = filter (fun r => F64.isfinite (snd r)) s.
Proof.
  unfold target_step_b, dropna, replace_inf_nan.
  induction s as [|[l x] s IH]; simpl; [reflexivity|].
  destruct x; simpl; rewrite IH; reflexivity.
Qed.

(** C1. Whatever routine sums the column for the mean, the target is
    cleaned in two steps, in this order.  (a) Every row keeps its label
    and its place; a missing value becomes the column mean and every
    other value, an infinite one included, stays as it is.  (b) Of the
    rows it is given, the second step keeps those with a finite value,
    unchanged, and drops the others; it fills nothing.  The cleaned
    target is step (b) applied to the result of step (a).  Hence an
    infinite target comes out of step (a) as it went in, and a value
    that is present after step (a) and missing after the conversion of
    infinities is a row the result does not have: the result is the
    cleaning of the rows before it followed by that of the rows after
    it. *)
Theorem clean_target_fills_then_drops (np_sum : list F64.t -> F64.t)
    (y : Series) :
  (forall i l x,
     nth_error y i = Some (l, x) ->
     nth_error (target_step_a_with np_sum y) i
     = Some (l, if F64.isnan x then mean_with np_sum y else x))
  /\ (forall s, target_step_b s = filter (fun r => F64.isfinite (snd r)) s)
  /\ clean_target_with np_sum y
     = filter (fun r => F64.isfinite (snd r))
         (map (fun r => (fst r,
                         if F64.isnan (snd r) then mean_with np_sum y
                         else snd r)) y)
  /\ (forall i l x,
        nth_error y i = Some (l, x) -> F64.isinf x = true ->
        nth_error (target_step_a_with np_sum y) i = Some (l, x))
  /\ (forall i l x,
        nth_error (target_step_a_with np_sum y) i = Some (l, x) ->
        F64.isnan x = false ->
        nth_error (replace_inf_nan (target_step_a_with np_sum y)) i
        = Some (l, F64.nan) ->
        clean_target_with np_sum y
        = target_step_b (firstn i (target_step_a_with np_sum y))
          ++ target_step_b (skipn (S i) (target_step_a_with np_sum y))).
Proof.
  split.
  { intros i l x Hnth. unfold target_step_a_with, fillna.
    rewrite nth_error_map, Hnth. reflexivity. }
  split; [exact step_b_keeps_finite|].
  split.
  { unfold clean_target_with, target_step_a_with.
    rewrite step_b_keeps_finite. reflexivity. }
  split.
  - intros i l x Hnth Hinf. unfold target_step_a_with, fillna.
    rewrite nth_error_map, Hnth. simpl.
    destruct x; try discriminate. reflexivity.
  - intros i l x Hnth Hpresent Hgone.
    unfold clean_target_with.
    rewrite (nth_error_split_at _ _ _ Hnth) at 1.
    rewrite step_b_app. f_equal.
    change ((l, x) :: skipn (S i) (target_step_a_with np_sum y))
      with ([(l, x)] ++ skipn (S i) (target_step_a_with np_sum y)).
    rewrite step_b_app.
    unfold replace_inf_nan in Hgone. rewrite nth_error_map, Hnth in Hgone.
    simpl in Hgone. injection Hgone as Hgone.
    destruct x; simpl in *; try discriminate; reflexivity.
Qed.

(** C2. A target column of 1,000 rows with exactly one missing and
    exactly one infinite value is cleaned to 998 rows. *)
Theorem thousand_rows_leave_998 (y : Series) :
  List.length y = 1000 ->
  count_where F64.isnan y = 1 ->
  count_where F64.isinf y = 1 ->
  List.length (clean_target y) = 998.
Proof.
  intros Hlen Hnan Hinf.
  unfold clean_target, clean_target_with, target_step_a, target_step_a_with. rewrite cleaned_length.
  rewrite mean_with_infinity by lia.
  pose proof (count_where_partition y). lia.
Qed.

End TargetCleaning.

Lemma thousand_rows_leave_998_witness :
  List.length Sample.thousand_targets = 1000
  /\ count_where F64.isnan Sample.thousand_targets = 1
  /\ count_where F64.isinf Sample.thousand_targets = 1
  /\ List.length (clean_target Sample.thousand_targets) = 998.
Proof.
  assert (H1 : List.length Sample.thousand_targets = 1000) by (vm_compute; reflexivity).
  assert (H2 : count_where F64.isnan Sample.thousand_targets = 1) by (vm_compute; reflexivity).
  assert (H3 : count_where F64.isinf Sample.thousand_targets = 1) by (vm_compute; reflexivity).
  split; [exact H1|]. split; [exact H2|]. split; [exact H3|].
  exact (thousand_rows_leave_998 Sample.thousand_targets H1 H2 H3).
Defined.

(** ** Row alignment *)

Section Alignment.

Lemma remove_at_spec {A : Type} (xs : list A) (i : nat) (d : A) :
  i < List.length xs ->
  xs = firstn i xs ++ nth i xs d :: skipn (S i) xs.
Proof.
  intros Hi. apply nth_error_split_at. apply nth_error_nth'. exact Hi.
Qed.

Lemma draw_step (a : nat) (pool : list nat) (k : nat) (raw : list nat) :
  let i := hd 0 raw mod List.length (a :: pool) in
  fst (draw (a :: pool) (S k) raw)
  = nth i (a :: pool) 0 :: fst (draw (remove_at i (a :: pool)) k (tl raw)).
Proof.
  intros i. change (draw (a :: pool) (S k) raw)
    with (let '(rest, raw') := draw (remove_at i (a :: pool)) k (tl raw) in
          (nth i (a :: pool) 0 :: rest, raw')).
  destruct (draw (remove_at i (a :: pool)) k (tl raw)). reflexivity.
Qed.

Lemma draw_from_pool (k : nat) :
  forall pool raw,
    NoDup pool ->
    NoDup (fst (draw pool k raw)) /\ incl (fst (draw pool k raw)) pool.
Proof.
  induction k as [|k IH]; intros pool raw Hnd.
  - split; [constructor | intros x []].
  - destruct pool as [|a pool]; [split; [constructor | intros x []]|].
    rewrite draw_step.
    set (p := a :: pool) in *.
    set (i := hd 0 raw mod List.length p).
    assert (Hi : i < List.length p).
    { apply Nat.mod_upper_bound. discriminate. }
    pose proof (remove_at_spec p i 0 Hi) as Hsplit.
    assert (Hrem : NoDup (remove_at i p) /\ ~ In (nth i p 0) (remove_at i p)).
    { unfold remove_at. rewrite Hsplit in Hnd.
      split; [eapply NoDup_remove_1 | eapply NoDup_remove_2]; exact Hnd. }
    destruct Hrem as [Hnd' Hnotin].
    destruct (IH (remove_at i p) (tl raw) Hnd') as [IHnd IHin].
    assert (Hsub : incl (remove_at i p) p).
    { intros x Hx. rewrite Hsplit. unfold remove_at in Hx.
      apply in_app_or in Hx. apply in_or_app.
      destruct Hx as [Hx|Hx]; [left | right; right]; exact Hx. }
    split.
    + constructor; [|exact IHnd].
      intros Hin. apply Hnotin, IHin, Hin.
    + intros x [<-|Hx].
      * apply nth_In. exact Hi.
      * apply Hsub, IHin, Hx.
Qed.

Lemma take_list_length {A : Type} (xs : list A) (ps : list nat) :
  Forall (fun p => p < List.length xs) ps ->
  List.length (take_list ps xs) = List.length ps.
Proof.
  unfold take_list. induction 1 as [|p ps Hp _ IH]; simpl; [reflexivity|].
  apply nth_error_Some in Hp.
  destruct (nth_error xs p); [|contradiction]. simpl. f_equal. exact IH.
Qed.

Lemma take_list_seq (n : nat) (ps : list nat) :
  Forall (fun p => p < n) ps -> take_list ps (seq 0 n) = ps.
Proof.
  unfold take_list. induction 1 as [|p ps Hp _ IH]; simpl; [reflexivity|].
  rewrite (nth_error_nth' (seq 0 n) 0) by (rewrite length_seq; exact Hp).
  rewrite seq_nth by exact Hp. simpl. f_equal. exact IH.
Qed.

Lemma col_length_take (c : column) (ps : list nat) :
  Forall (fun p => p < col_length c) ps ->
  col_length (take_column ps c) = List.length ps.
Proof.
  destruct c; simpl; apply take_list_length.
Qed.

Lemma rectangular_columns (df : DataFrame) :
  rectangular df = true <->
  Forall (fun kc => col_length (snd kc) = nrows df) (columns df).
Proof.
  unfold rectangular. rewrite forallb_forall, Forall_forall.
  split; intros H kc Hin; specialize (H kc Hin);
    [apply Nat.eqb_eq | apply Nat.eqb_eq]; exact H.
Qed.

(** Taking rows at valid positions gives a table with one row per
    position. *)
Lemma take_rectangular (df : DataFrame) (ps : list nat) :
  rectangular df = true ->
  Forall (fun p => p < nrows df) ps ->
  rectangular (take ps df) = true /\ nrows (take ps df) = List.length ps.
Proof.
  intros Hrect Hps.
  assert (Hn : nrows (take ps df) = List.length ps).
  { unfold nrows, take. simpl. apply take_list_length. exact Hps. }
  split; [|exact Hn].
  apply rectangular_columns. rewrite Hn.
  apply rectangular_columns in Hrect.
  unfold take. simpl. apply Forall_map. simpl.
  eapply Forall_impl; [|exact Hrect].
  intros kc Hkc. apply col_length_take. rewrite Hkc. exact Hps.
Qed.

Lemma positions_from_absent (idx : list nat) :
  forall i l, ~ In l idx -> positions_from i l idx = [].
Proof.
  induction idx as [|x idx IH]; intros i l Hl; simpl; [reflexivity|].
  destruct (Nat.eqb_spec x l) as [->|Hne].
  - exfalso. apply Hl. left. reflexivity.
  - simpl. apply IH. intros Hin. apply Hl. right. exact Hin.
Qed.

(** In an index without repeated labels a label has one position. *)
Lemma positions_from_unique (idx : list nat) :
  forall i l,
    NoDup idx -> In l idx ->
    exists p, positions_from i l idx = [i + p] /\ nth_error idx p = Some l.
Proof.
  induction idx as [|x idx IH]; intros i l Hnd Hin; [destruct Hin|].
  inversion Hnd as [|? ? Hx Hnd']; subst. simpl.
  destruct (Nat.eqb_spec x l) as [->|Hne].
  - exists 0. rewrite positions_from_absent by exact Hx.
    rewrite Nat.add_0_r. split; reflexivity.
  - destruct Hin as [Heq|Hin]; [contradiction|].
    destruct (IH (S i) l Hnd' Hin) as [p [Hp Hnth]].
    exists (S p). simpl. rewrite Hp. split; [f_equal; lia | exact Hnth].
Qed.

Lemma label_positions (idx labels : list nat) :
  NoDup idx -> incl labels idx ->
  let ps := flat_map (fun l => positions_from 0 l idx) labels in
  Forall (fun p => p < List.length idx) ps /\ take_list ps idx = labels.
Proof.
  intros Hnd. induction labels as [|l labels IH]; intros Hincl; simpl.
  - split; [constructor | reflexivity].
  - destruct (positions_from_unique idx 0 l Hnd (Hincl l (or_introl eq_refl)))
      as [p [Hp Hnth]].
    destruct IH as [IHlt IHtake].
    { intros x Hx. apply Hincl. right. exact Hx. }
    rewrite Hp. simpl. split.
    + constructor; [|exact IHlt].
      apply nth_error_Some. rewrite Hnth. discriminate.
    + unfold take_list in *. simpl. rewrite Hnth. simpl. f_equal. exact IHtake.
Qed.

(** [loc] on an index without repeated labels. *)
Lemma loc_unique_index (df : DataFrame) (labels : list nat) :
  NoDup (index df) -> rectangular df = true -> incl labels (index df) ->
  exists X,
    loc df labels = ok X /\ index X = labels /\ rectangular X = true.
Proof.
  intros Hnd Hrect Hincl. unfold loc.
  assert (Hall : forallb (fun l => existsb (Nat.eqb l) (index df)) labels = true).
  { apply forallb_forall. intros l Hl. apply existsb_exists.
    exists l. split; [apply Hincl, Hl | apply Nat.eqb_refl]. }
  rewrite Hall.
  destruct (label_positions (index df) labels Hnd Hincl) as [Hlt Htake].
  eexists. split; [reflexivity|]. split.
  - exact Htake.
  - apply take_rectangular; assumption.
Qed.

Lemma lookup_map_values {V W : Type} (f : V -> W) (k : string)
    (d : list (string * V)) :
  lookup k (map (fun kv => (fst kv, f (snd kv))) d) = option_map f (lookup k d).
Proof.
  induction d as [|[k' v] d IH]; simpl; [reflexivity|].
  destruct (String.eqb k' k); [reflexivity | exact IH].
Qed.

Lemma drop_present (ks : list string) (df : DataFrame) :
  forallb (fun k => has_key k (columns df)) ks = true ->
  exists X, drop ks df = ok X /\ index X = index df
            /\ (rectangular df = true -> rectangular X = true).
Proof.
  intros Hks. unfold drop.
  assert (Hnone : filter (fun k => negb (has_key k (columns df))) ks = []).
  { induction ks as [|k ks IH]; simpl in *; [reflexivity|].
    apply andb_prop in Hks. destruct Hks as [Hk Hks].
    rewrite Hk. simpl. apply IH, Hks. }
  rewrite Hnone. eexists. split; [reflexivity|]. split; [reflexivity|].
  intros Hrect. apply rectangular_columns. apply rectangular_columns in Hrect.
  simpl. unfold nrows in *. simpl.
  apply Forall_forall. intros kc Hin. apply filter_In in Hin.
  rewrite Forall_forall in Hrect. apply Hrect. apply Hin.
Qed.

Lemma cleaned_index_incl (y : Series) : incl (s_index (clean_target y)) (s_index y).
Proof.
  unfold clean_target, clean_target_with, target_step_b, target_step_a_with, dropna, s_index.
  eapply incl_tran; [apply incl_map, incl_filter|].
  unfold replace_inf_nan, fillna. rewrite !map_map. simpl.
  apply incl_refl.
Qed.

Lemma read_csv_index (cols : list (string * column)) :
  index (read_csv cols) = seq 0 (nrows (read_csv cols)).
Proof.
  unfold nrows, read_csv. simpl. rewrite length_seq. reflexivity.
Qed.

(** The table the script cleans: the file under a fresh index, its rows
    reordered by the seeded draw. *)
Lemma loaded_table (cols : list (string * column)) (raw : list nat) :
  rectangular (read_csv cols) = true ->
  NoDup (index (sample_all raw (read_csv cols)))
  /\ rectangular (sample_all raw (read_csv cols)) = true.
Proof.
  intros Hrect. unfold sample_all.
  pose proof (read_csv_index cols) as Hidx.
  set (df := read_csv cols) in *.
  set (ps := fst (draw (seq 0 (nrows df)) (nrows df) raw)).
  destruct (draw_from_pool (nrows df) (seq 0 (nrows df)) raw (seq_NoDup _ _))
    as [Hnd Hincl].
  fold ps in Hnd, Hincl.
  assert (Hlt : Forall (fun p => p < nrows df) ps).
  { apply Forall_forall. intros p Hp. apply Hincl, in_seq in Hp. lia. }
  split.
  - change (index (take ps df)) with (take_list ps (index df)).
    rewrite Hidx, take_list_seq by exact Hlt. exact Hnd.
  - apply take_rectangular; assumption.
Qed.

Lemma combine_index_incl (idx : list nat) (vs : list F64.t) :
  incl (s_index (combine idx vs)) idx.
Proof.
  intros l Hl. unfold s_index in Hl. apply in_map_iff in Hl.
  destruct Hl as [[l' v] [<- Hin]]. simpl. eapply in_combine_l, Hin.
Qed.

(** Alignment for any table whose index has no repeated label. *)
Lemma prepare_target_aligned (train : DataFrame) :
  NoDup (index train) ->
  rectangular train = true ->
  (exists c, lookup target_name (columns train) = Some c /\ is_number c = true) ->
  has_key "id" (columns train) = true ->
  exists X y,
    prepare_target train = ok (X, y)
    /\ index X = s_index y
    /\ nrows X = List.length y
    /\ rectangular X = true.
Proof.
  intros Hnd Hrect [c [Hc Hnum]] Hid.
  unfold prepare_target, getitem. rewrite Hc. simpl.
  assert (Hvs : exists vs, float_values c = ok vs).
  { destruct c; try discriminate; eexists; reflexivity. }
  destruct Hvs as [vs Hvs]. rewrite Hvs. simpl.
  set (y := clean_target (combine (index train) vs)).
  destruct (drop_present [target_name; "id"] train) as [X0 [HX0 [Hidx0 Hrect0]]].
  { simpl. unfold has_key at 1. rewrite Hc, Hid. reflexivity. }
  rewrite HX0. simpl.
  destruct (loc_unique_index X0 (s_index y)) as [X [HX [Hidx HrectX]]].
  - rewrite Hidx0. exact Hnd.
  - apply Hrect0, Hrect.
  - rewrite Hidx0. eapply incl_tran; [apply cleaned_index_incl|].
    apply combine_index_incl.
  - rewrite HX. simpl. exists X, y.
    split; [reflexivity|]. split; [exact Hidx|]. split; [|exact HrectX].
    unfold nrows. rewrite Hidx. unfold s_index. apply length_map.
Qed.

(** C3. Whatever the training file and whatever order the seeded draw
    puts its rows in, target cleaning returns a feature table and a
    target series with the same row labels in the same order, hence of
    the same number of rows, every feature column having one cell per
    surviving row. *)
Theorem features_follow_cleaned_target
    (train_csv : list (string * column)) (raw : list nat) :
  rectangular (read_csv train_csv) = true ->
  (exists c, lookup target_name train_csv = Some c /\ is_number c = true) ->
  has_key "id" train_csv = true ->
  exists X y,
    prepare_target (sample_all raw (read_csv train_csv)) = ok (X, y)
    /\ index X = s_index y
    /\ nrows X = List.length y
    /\ rectangular X = true.
Proof.
  intros Hrect [c [Hc Hnum]] Hid.
  destruct (loaded_table train_csv raw Hrect) as [Hnd Hrect'].
  apply prepare_target_aligned; try assumption.
  - unfold sample_all, take. simpl. rewrite lookup_map_values, Hc. simpl.
    eexists. split; [reflexivity|]. destruct c; try discriminate; reflexivity.
  - unfold has_key in *. unfold sample_all, take. simpl.
    rewrite lookup_map_values.
    destruct (lookup "id" train_csv); [reflexivity | discriminate].
Qed.

End Alignment.

Lemma features_follow_cleaned_target_witness :
  exists X y,
    prepare_target (sample_all (Sample.RandomState 42) (read_csv Sample.train_csv))
    = ok (X, y)
    /\ index X = s_index y
    /\ nrows X = List.length y
    /\ rectangular X = true.
Proof.
  apply (features_follow_cleaned_target Sample.train_csv (Sample.RandomState 42)).
  - vm_compute. reflexivity.
  - eexists. split; vm_compute; reflexivity.
  - vm_compute. reflexivity.
Defined.

(** ** Date columns *)

Section Dates.

Variable to_datetime_column : column -> list (option date).

(** *** The float of an integer is a number *)

Lemma shr_1_nonneg (mrs : shr_record) :
  (0 <= shr_m mrs)%Z -> (0 <= shr_m (shr_1 mrs))%Z.
Proof.
  destruct mrs as [m r s]. simpl. intros Hm.
  destruct m as [|p|p]; [simpl; lia | | exfalso; lia].
  destruct p; simpl; lia.
Qed.

Lemma iter_shr_1_nonneg (p : positive) :
  forall mrs, (0 <= shr_m mrs)%Z -> (0 <= shr_m (iter_pos shr_1 p mrs))%Z.
Proof.
  induction p as [p IH|p IH|]; intros mrs Hm; simpl.
  - apply IH, IH, shr_1_nonneg, Hm.
  - apply IH, IH, Hm.
  - apply shr_1_nonneg, Hm.
Qed.

Lemma shr_fexp_nonneg (prec emax m e : Z) (l : location) :
  (0 <= m)%Z -> (0 <= shr_m (fst (shr_fexp prec emax m e l)))%Z.
Proof.
  intros Hm. unfold shr_fexp, shr.
  assert (H0 : (0 <= shr_m (shr_record_of_loc m l))%Z).
  { destruct l as [|[| |]]; simpl; exact Hm. }
  destruct (fexp prec emax (Zdigits2 m + e) - e)%Z; simpl; try exact H0.
  apply iter_shr_1_nonneg, H0.
Qed.

Lemma round_nearest_even_nonneg (m : Z) (l : location) :
  (0 <= m)%Z -> (0 <= round_nearest_even m l)%Z.
Proof.
  intros Hm. destruct l as [|[| |]]; simpl; try lia.
  destruct (Z.even m); lia.
Qed.

Lemma binary_round_aux_number (prec emax : Z) (sx : bool) (mx ex : Z)
    (lx : location) :
  (0 <= mx)%Z -> F64.isnan (binary_round_aux prec emax sx mx ex lx) = false.
Proof.
  intros Hm. unfold binary_round_aux.
  pose proof (shr_fexp_nonneg prec emax mx ex lx Hm) as H1.
  destruct (shr_fexp prec emax mx ex lx) as [mrs' e']. simpl in H1.
  pose proof (shr_fexp_nonneg prec emax _ e' loc_Exact
                (round_nearest_even_nonneg _ (loc_of_shr_record mrs') H1)) as H2.
  destruct (shr_fexp prec emax
              (round_nearest_even (shr_m mrs') (loc_of_shr_record mrs')) e' loc_Exact)
    as [mrs'' e'']. simpl in H2.
  destruct (shr_m mrs'') as [|p|p]; [reflexivity | | exfalso; lia].
  destruct (e'' <=? emax - prec)%Z; reflexivity.
Qed.

Lemma of_Z_number (z : Z) : F64.isnan (F64.of_Z z) = false.
Proof.
  unfold F64.of_Z, binary_normalize.
  destruct z as [|p|p]; [reflexivity | |];
    unfold binary_round;
    destruct (shl_align _ _ _) as [mz ez];
    apply binary_round_aux_number; lia.
Qed.

(** *** Dictionaries *)

Lemma lookup_assign_same {V : Type} (k : string) (v : V) (d : list (string * V)) :
  lookup k (assign k v d) = Some v.
Proof.
  induction d as [|[k' v'] d IH]; simpl.
  - rewrite String.eqb_refl. reflexivity.
  - destruct (String.eqb k' k) eqn:E; simpl.
    + rewrite String.eqb_refl. reflexivity.
    + rewrite E. exact IH.
Qed.

Lemma lookup_assign_other {V : Type} (k k0 : string) (v : V)
    (d : list (string * V)) :
  k0 <> k -> lookup k0 (assign k v d) = lookup k0 d.
Proof.
  intros Hne. induction d as [|[k' v'] d IH]; simpl.
  - destruct (String.eqb_spec k k0); [congruence | reflexivity].
  - destruct (String.eqb_spec k' k) as [->|Hk]; simpl.
    + destruct (String.eqb_spec k k0); [congruence | reflexivity].
    + destruct (String.eqb k' k0); [reflexivity | exact IH].
Qed.

Lemma lookup_names {V : Type} (k : string) (d : list (string * V)) :
  lookup k d = None <-> ~ In k (map fst d).
Proof.
  induction d as [|[k' v'] d IH]; simpl.
  - split; [intros _ [] | reflexivity].
  - destruct (String.eqb_spec k' k) as [->|Hk].
    + split; [discriminate | intros H; exfalso; apply H; left; reflexivity].
    + rewrite IH. split.
      * intros H [Heq|Hin]; [contradiction | apply H, Hin].
      * intros H Hin. apply H. right. exact Hin.
Qed.

Lemma names_assign_present {V : Type} (k : string) (v : V)
    (d : list (string * V)) :
  In k (map fst d) -> map fst (assign k v d) = map fst d.
Proof.
  induction d as [|[k' v'] d IH]; simpl; [intros []|].
  intros Hin. destruct (String.eqb_spec k' k) as [->|Hk]; simpl.
  - reflexivity.
  - f_equal. apply IH. destruct Hin; [contradiction | assumption].
Qed.

Lemma names_assign_absent {V : Type} (k : string) (v : V)
    (d : list (string * V)) :
  ~ In k (map fst d) -> map fst (assign k v d) = map fst d ++ [k].
Proof.
  induction d as [|[k' v'] d IH]; simpl; [reflexivity|].
  intros Hin. destruct (String.eqb_spec k' k) as [->|Hk]; simpl.
  - exfalso. apply Hin. left. reflexivity.
  - f_equal. apply IH. intros H. apply Hin. right. exact H.
Qed.

Lemma lookup_filter_names {V : Type} (keep : string -> bool) (k : string)
    (d : list (string * V)) :
  lookup k (filter (fun kv => keep (fst kv)) d)
  = if keep k then lookup k d else None.
Proof.
  induction d as [|[k' v'] d IH]; simpl.
  - destruct (keep k); reflexivity.
  - destruct (keep k') eqn:Ek'; simpl.
    + destruct (String.eqb_spec k' k) as [->|Hk].
      * rewrite Ek'. reflexivity.
      * exact IH.
    + rewrite IH. destruct (String.eqb_spec k' k) as [->|Hk].
      * rewrite Ek'. reflexivity.
      * reflexivity.
Qed.

(** *** Strings *)

Lemma append_inj (a b c : string) : (a ++ b = a ++ c)%string -> b = c.
Proof.
  induction a as [|ch a IH]; simpl; intros H; [exact H|].
  injection H as H. apply IH, H.
Qed.

Lemma append_empty (a : string) : (a ++ EmptyString)%string = a.
Proof.
  induction a as [|ch a IH]; simpl; [reflexivity | f_equal; exact IH].
Qed.

Lemma append_nonempty (a b : string) : b <> EmptyString -> (a ++ b)%string <> a.
Proof.
  intros Hb H. apply Hb. apply (append_inj a).
  rewrite H, append_empty. reflexivity.
Qed.

(** *** The decomposition *)

Lemma bind_ok {A B : Type} (a : A) (k : A -> exc B) : bind (ok a) k = k a.
Proof. reflexivity. Qed.

Lemma getitem_setitem_same (df : DataFrame) (k : string) (c : column) :
  getitem (setitem df k c) k = ok c.
Proof.
  unfold getitem, setitem. simpl. rewrite lookup_assign_same. reflexivity.
Qed.

Lemma getitem_setitem_other (df : DataFrame) (k k0 : string) (c : column) :
  k0 <> k -> getitem (setitem df k c) k0 = getitem df k0.
Proof.
  intros Hne. unfold getitem, setitem. simpl.
  rewrite lookup_assign_other by exact Hne. reflexivity.
Qed.

Lemma to_datetime_dates (c : column) :
  to_datetime to_datetime_column c
  = Datetime64 (dates_of (to_datetime to_datetime_column c))
  /\ List.length (dates_of (to_datetime to_datetime_column c)) = col_length c.
Proof.
  unfold to_datetime, dates_of. split; [reflexivity|].
  rewrite length_map, length_seq. reflexivity.
Qed.

(** The date in row [i] of the parsed column. *)
Lemma to_datetime_row (c : column) (i : nat) :
  i < col_length c ->
  nth_error (dates_of (to_datetime to_datetime_column c)) i
  = Some (if cell_missing c i then None
          else nth i (to_datetime_column c) None).
Proof.
  intros Hi. unfold to_datetime, dates_of.
  rewrite nth_error_map.
  rewrite (nth_error_nth' (seq 0 (col_length c)) 0)
    by (rewrite length_seq; exact Hi).
  rewrite seq_nth by exact Hi. reflexivity.
Qed.

(** What a derived column holds, row by row, in terms of the column it
    was derived from. *)
Lemma field_column_cells (field : date -> Z) (c derived : column) :
  field_column field (dates_of (to_datetime to_datetime_column c)) derived ->
  (is_numeric_dtype derived = true /\ col_length derived = col_length c)
  /\ forall i, i < col_length c ->
       (cell_missing c i = true -> cell_missing derived i = true)
       /\ (cell_missing c i = false ->
           field_cell field (nth i (to_datetime_column c) None) derived i).
Proof.
  intros (Hnum & Hlen & Hcells).
  destruct (to_datetime_dates c) as [_ Hn].
  split; [split; [exact Hnum | rewrite Hlen; exact Hn]|].
  intros i Hi. specialize (Hcells i).
  rewrite (to_datetime_row c i Hi) in Hcells.
  split; intros Hmiss; rewrite Hmiss in Hcells.
  - exact Hcells.
  - unfold field_cell.
    destruct (nth i (to_datetime_column c) None); exact Hcells.
Qed.

(** A date field of a datetime column is always produced, with NaN where
    the date is missing. *)
Lemma dt_field_column (field : date -> Z) (ds : list (option date)) :
  exists v, dt field (Datetime64 ds) = ok v /\ field_column field ds v.
Proof.
  unfold dt. destruct (forallb is_some ds) eqn:Hall.
  - eexists. split; [reflexivity|].
    split; [reflexivity|]. split; [simpl; apply length_map|].
    intros i. destruct (nth_error ds i) as [[d|]|] eqn:E; [| |exact I].
    + split; [reflexivity|]. simpl. rewrite nth_error_map, E. reflexivity.
    + exfalso. rewrite forallb_forall in Hall.
      specialize (Hall None (nth_error_In _ _ E)). discriminate.
  - eexists. split; [reflexivity|].
    split; [reflexivity|]. split; [simpl; apply length_map|].
    intros i. destruct (nth_error ds i) as [[d|]|] eqn:E; [| |exact I].
    + split; simpl; rewrite nth_error_map, E; simpl;
        [apply of_Z_number | reflexivity].
    + simpl. rewrite nth_error_map, E. reflexivity.
Qed.

Lemma names_filter {V : Type} (keep : string -> bool) (d : list (string * V)) :
  map fst (filter (fun kv => keep (fst kv)) d) = filter keep (map fst d).
Proof.
  induction d as [|[k v] d IH]; simpl; [reflexivity|].
  destruct (keep k); simpl; [f_equal|]; exact IH.
Qed.

Lemma derived_names_distinct (col : string) :
  NoDup (col :: derived_names col).
Proof.
  unfold derived_names.
  assert (Hy : (col ++ "_year")%string <> col) by (apply append_nonempty; discriminate).
  assert (Hm : (col ++ "_month")%string <> col) by (apply append_nonempty; discriminate).
  assert (Hw : (col ++ "_weekday")%string <> col) by (apply append_nonempty; discriminate).
  assert (Hym : (col ++ "_year")%string <> (col ++ "_month")%string).
  { intros H. apply append_inj in H. discriminate. }
  assert (Hyw : (col ++ "_year")%string <> (col ++ "_weekday")%string).
  { intros H. apply append_inj in H. discriminate. }
  assert (Hmw : (col ++ "_month")%string <> (col ++ "_weekday")%string).
  { intros H. apply append_inj in H. discriminate. }
  repeat constructor; simpl; intuition congruence.
Qed.

(** One table: whenever the date column is there, the decomposition
    returns, and returns the decomposed table. *)
Lemma date_features_decomposes (col : string) (df : DataFrame) :
  has_key col (columns df) = true ->
  exists df',
    date_features to_datetime_column col df = ok df'
    /\ decomposed to_datetime_column col df df'.
Proof.
  intros Hk. unfold has_key in Hk.
  destruct (lookup col (columns df)) as [c|] eqn:Hc; [clear Hk | discriminate].
  destruct (to_datetime_dates c) as [Hdt Hlen].
  set (ds := dates_of (to_datetime to_datetime_column c)) in *.
  destruct (dt_field_column year ds) as [y [Hy Fy]].
  destruct (dt_field_column month ds) as [m [Hm Fm]].
  destruct (dt_field_column weekday ds) as [w [Hw Fw]].
  pose proof (derived_names_distinct col) as Hnd. unfold derived_names in Hnd.
  set (cy := (col ++ "_year")%string) in *.
  set (cm := (col ++ "_month")%string) in *.
  set (cw := (col ++ "_weekday")%string) in *.
  assert (Hneq : col <> cy /\ col <> cm /\ col <> cw
                 /\ cy <> cm /\ cy <> cw /\ cm <> cw).
  { inversion Hnd as [|? ? H1 Hnd1]; subst.
    inversion Hnd1 as [|? ? H2 Hnd2]; subst.
    inversion Hnd2 as [|? ? H3 Hnd3]; subst.
    simpl in H1, H2, H3. intuition congruence. }
  destruct Hneq as (Hcy & Hcm & Hcw & Hym & Hyw & Hmw).
  set (cols4 := assign cw w (assign cm m (assign cy y
                  (assign col (Datetime64 ds) (columns df))))).
  set (keep := fun k : string => negb (existsb (String.eqb k) [col])).
  assert (Hkeep : forall k, keep k = negb (String.eqb k col)).
  { intros k. unfold keep. simpl. rewrite orb_false_r. reflexivity. }
  assert (Hrun : date_features to_datetime_column col df
                 = ok (mkframe (index df) (filter (fun kc => keep (fst kc)) cols4))).
  { unfold date_features. unfold getitem at 1. rewrite Hc, bind_ok, Hdt.
    rewrite getitem_setitem_same, bind_ok, Hy, bind_ok.
    fold cy. rewrite getitem_setitem_other by exact Hcy.
    rewrite getitem_setitem_same, bind_ok, Hm, bind_ok.
    fold cm. rewrite getitem_setitem_other by exact Hcm.
    rewrite getitem_setitem_other by exact Hcy.
    rewrite getitem_setitem_same, bind_ok, Hw, bind_ok.
    fold cw. unfold drop, has_key, setitem. simpl columns. simpl index.
    fold cols4. unfold filter at 1.
    assert (Hhas : lookup col cols4 <> None).
    { unfold cols4. rewrite !lookup_assign_other by congruence.
      rewrite lookup_assign_same. discriminate. }
    destruct (lookup col cols4); [reflexivity | contradiction]. }
  eexists. split; [exact Hrun|].
  exists c, y, m, w. simpl columns. simpl index. fold cy cm cw.
  rewrite !lookup_filter_names, !Hkeep.
  rewrite String.eqb_refl.
  rewrite (proj2 (String.eqb_neq cy col)) by congruence.
  rewrite (proj2 (String.eqb_neq cm col)) by congruence.
  rewrite (proj2 (String.eqb_neq cw col)) by congruence.
  simpl negb. cbv iota.
  split; [exact Hc|]. split; [reflexivity|]. split; [reflexivity|].
  split.
  { unfold cols4. rewrite !lookup_assign_other by congruence.
    apply lookup_assign_same. }
  split.
  { unfold cols4. rewrite lookup_assign_other by congruence.
    apply lookup_assign_same. }
  split; [unfold cols4; apply lookup_assign_same|].
  destruct (field_column_cells year c y Fy) as [Ny Cy].
  destruct (field_column_cells month c m Fm) as [Nm Cm].
  destruct (field_column_cells weekday c w Fw) as [Nw Cw].
  split; [exact Ny|]. split; [exact Nm|]. split; [exact Nw|].
  split.
  { intros i Hi.
    destruct (Cy i Hi) as [Cy1 Cy2]. destruct (Cm i Hi) as [Cm1 Cm2].
    destruct (Cw i Hi) as [Cw1 Cw2].
    split; intros Hmiss.
    - split; [apply Cy1, Hmiss|]. split; [apply Cm1, Hmiss | apply Cw1, Hmiss].
    - split; [apply Cy2, Hmiss|]. split; [apply Cm2, Hmiss | apply Cw2, Hmiss]. }
  split.
  - intros k Hk. unfold derived_names in Hk. fold cy cm cw in Hk. simpl in Hk.
    rewrite lookup_filter_names, Hkeep.
    rewrite (proj2 (String.eqb_neq k col)) by intuition congruence.
    simpl. unfold cols4. rewrite !lookup_assign_other by intuition congruence.
    reflexivity.
  - intros Hfresh. unfold names. simpl columns.
    unfold derived_names in *. fold cy cm cw in Hfresh |- *.
    rewrite names_filter.
    assert (Hnames : map fst cols4 = map fst (columns df) ++ [cy; cm; cw]).
    { unfold cols4.
      assert (H0 : map fst (assign col (Datetime64 ds) (columns df))
                   = map fst (columns df)).
      { apply names_assign_present.
        destruct (in_dec string_dec col (map fst (columns df))) as [Hin|Hout];
          [exact Hin|].
        apply lookup_names in Hout. congruence. }
      assert (H1 : map fst (assign cy y (assign col (Datetime64 ds) (columns df)))
                   = map fst (columns df) ++ [cy]).
      { rewrite names_assign_absent; rewrite H0; [reflexivity|].
        apply Hfresh. simpl. tauto. }
      assert (H2 : map fst (assign cm m (assign cy y
                     (assign col (Datetime64 ds) (columns df))))
                   = map fst (columns df) ++ [cy; cm]).
      { rewrite names_assign_absent; rewrite H1.
        - rewrite <- app_assoc. reflexivity.
        - intros Hin. apply in_app_or in Hin. destruct Hin as [Hin|[Hin|[]]].
          + revert Hin. apply Hfresh. simpl. tauto.
          + congruence. }
      rewrite names_assign_absent; rewrite H2.
      - rewrite <- app_assoc. reflexivity.
      - intros Hin. apply in_app_or in Hin. destruct Hin as [Hin|[Hin|[Hin|[]]]].
        + revert Hin. apply Hfresh. simpl. tauto.
        + congruence.
        + congruence. }
    rewrite Hnames, filter_app. f_equal.
    + apply filter_ext. exact Hkeep.
    + simpl. rewrite !Hkeep.
      rewrite (proj2 (String.eqb_neq cy col)) by congruence.
      rewrite (proj2 (String.eqb_neq cm col)) by congruence.
      rewrite (proj2 (String.eqb_neq cw col)) by congruence.
      reflexivity.
Qed.

(** C7. For the date column of the script, in the feature table and in
    the test table alike, the decomposition is a function of the table
    and of what pandas reads from the column, and it always returns:
    the year, month and weekday columns are there, numeric, with one
    cell per row; in a row whose value is missing, or is one that
    pandas reads no date from, the three cells are missing (the columns
    are never absent); in a row a date is read from they hold the year,
    the month and the weekday of that date; and the date column itself
    is gone. *)
Theorem date_decomposition_total (X test : DataFrame) :
  has_key "Dogum Tarihi" (columns X) = true ->
  has_key "Dogum Tarihi" (columns test) = true ->
  exists X' test',
    decompose_dates to_datetime_column date_columns (X, test) = ok (X', test')
    /\ decomposed to_datetime_column "Dogum Tarihi" X X'
    /\ decomposed to_datetime_column "Dogum Tarihi" test test'.
Proof.
  intros HX Htest.
  destruct (date_features_decomposes "Dogum Tarihi" X HX) as [X' [HX' DX]].
  destruct (date_features_decomposes "Dogum Tarihi" test Htest) as [test' [Ht' Dt]].
  exists X', test'. split; [|split; assumption].
  unfold date_columns, decompose_dates. cbn [fst snd].
  rewrite HX', bind_ok, Ht', bind_ok. reflexivity.
Qed.

End Dates.

Lemma date_decomposition_total_witness :
  exists X' test',
    decompose_dates Sample.to_datetime_column date_columns
      (read_csv Sample.train_csv, read_csv Sample.test_csv) = ok (X', test')
    /\ decomposed Sample.to_datetime_column "Dogum Tarihi"
         (read_csv Sample.train_csv) X'
    /\ decomposed Sample.to_datetime_column "Dogum Tarihi"
         (read_csv Sample.test_csv) test'.
Proof.
  apply (date_decomposition_total Sample.to_datetime_column
           (read_csv Sample.train_csv) (read_csv Sample.test_csv)).
  - vm_compute. reflexivity.
  - vm_compute. reflexivity.
Defined.

(** ** Search spaces *)

(** C8. The catalogue holds the five families, and for each of them the
    grid the script hands to the search is, read in the words of the
    specification, the grid the specification gives. *)
Theorem search_space_matches_specification :
  map (fun entry => fst (snd entry)) models
  = map family_name
      [GradientBoostedTreesA; RandomForest; GradientBoostedTreesB;
       SupportVector; NativeCategoricalBoosting]
  /\ forall f : family,
       read_grid (param_distributions (family_name f))
       = map (fun kv => (Some (fst kv), snd kv)) (spec_grid f).
Proof.
  split; [reflexivity|]. intros f. destruct f; reflexivity.
Qed.

(** ** The randomized search *)

Section Search.

Variable RandomState : Z -> list nat.
Variable cross_val_score : pipeline -> params -> DataFrame -> Series -> F64.t.

Lemma best_from_in (scored : list (params * F64.t)) :
  forall best score, In (best_from best score scored) (best :: map fst scored).
Proof.
  induction scored as [|[p s] scored IH]; intros best score; simpl.
  - left. reflexivity.
  - destruct (improves score s).
    + right. apply IH.
    + destruct (IH best score) as [H|H]; [left | right; right]; exact H.
Qed.

(** The best candidate is one of the candidates, whatever the scores. *)
Lemma best_of_candidates (score : params -> F64.t) (candidates : list params) :
  candidates <> [] ->
  exists p, best_of (map (fun p => (p, score p)) candidates) = Some p
            /\ In p candidates.
Proof.
  destruct candidates as [|c candidates]; [congruence|]. intros _.
  simpl. eexists. split; [reflexivity|].
  pose proof (best_from_in (map (fun p => (p, score p)) candidates) c (score c)) as H.
  rewrite map_map in H. simpl in H. rewrite map_id in H. exact H.
Qed.

Lemma xgboost_draws_disjoint (p q : params) :
  In p (xgboost_candidates (seq 0 10)) ->
  In q (xgboost_candidates (seq 10 10)) ->
  p <> q.
Proof.
  intros Hp Hq.
  vm_compute in Hp. vm_compute in Hq.
  repeat (destruct Hp as [<-|Hp]); try contradiction;
    repeat (destruct Hq as [<-|Hq]); try contradiction; discriminate.
Qed.

Lemma xgboost_sampler (c : list line) (f : list (string * csv))
    (raw : list nat) :
  ParameterSampler RandomState (param_distributions "XGBoost")
    script_search_args (mkworld c f raw)
  = (mkworld c f (snd (sample_without_replacement 27 10 raw)),
     ok (xgboost_candidates (fst (sample_without_replacement 27 10 raw)))).
Proof.
  unfold ParameterSampler. simpl random_state. simpl n_iter. simpl numpy_global.
  change (grid_size (param_distributions "XGBoost")) with 27.
  change (Nat.min 10 27) with 10.
  destruct (sample_without_replacement 27 10 raw). reflexivity.
Qed.

(** C4. The search is constructed without a seed, so its candidates come
    from the global generator, which the script never seeds.  Two runs
    on the same data that differ only in the state of that generator
    end with different best parameters for XGBoost, whatever scores the
    cross-validation gives. *)
Theorem search_follows_unseeded_generator (model : pipeline) (X : DataFrame)
    (y : Series) (c : list line) (f : list (string * csv)) :
  random_state script_search_args = None
  /\ exists p0 p1,
       snd (search_best RandomState cross_val_score model
              (param_distributions "XGBoost") script_search_args X y
              (mkworld c f (repeat 0 10))) = ok (Some p0)
       /\ snd (search_best RandomState cross_val_score model
                 (param_distributions "XGBoost") script_search_args X y
                 (mkworld c f (repeat 10 10))) = ok (Some p1)
       /\ p0 <> p1.
Proof.
  split; [reflexivity|].
  unfold search_best, seq_bind. rewrite !xgboost_sampler.
  replace (fst (sample_without_replacement 27 10 (repeat 0 10))) with (seq 0 10)
    by (vm_compute; reflexivity).
  replace (fst (sample_without_replacement 27 10 (repeat 10 10))) with (seq 10 10)
    by (vm_compute; reflexivity).
  destruct (best_of_candidates (fun p => cross_val_score model p X y)
              (xgboost_candidates (seq 0 10))) as [p0 [H0 I0]];
    [discriminate|].
  destruct (best_of_candidates (fun p => cross_val_score model p X y)
              (xgboost_candidates (seq 10 10))) as [p1 [H1 I1]];
    [discriminate|].
  exists p0, p1. unfold ok, ret. cbv beta iota. cbn [snd]. rewrite H0, H1.
  split; [reflexivity|]. split; [reflexivity|].
  apply xgboost_draws_disjoint; assumption.
Qed.

End Search.

(** ** The selection and what follows it *)

Section Selection.

Variable estimator : Type.
Variable to_datetime_column : column -> list (option date).
Variable python_str : scalar -> string.
Variable RandomState : Z -> list nat.
Variable train_test_split :
  DataFrame -> Series -> Z -> (DataFrame * DataFrame) * (Series * Series).
Variable cross_val_score : pipeline -> params -> DataFrame -> Series -> F64.t.
Variable fit_pipeline : pipeline -> params -> DataFrame -> Series -> exc estimator.
Variable fit_stacking :
  list (string * estimator) -> DataFrame -> Series -> exc estimator.
Variable predict : estimator -> DataFrame -> exc (list F64.t).
Variable mean_squared_error : Series -> list F64.t -> F64.t.

Section Loop.

Variables numeric categorical : list string.
Variables X_train X_val : DataFrame.
Variables y_train y_val : Series.

Local Notation "'turn'" :=
  (loop_body estimator RandomState cross_val_score fit_pipeline predict
     mean_squared_error numeric categorical X_train X_val y_train y_val).

Local Notation "'the_loop'" :=
  (selection_loop estimator RandomState cross_val_score fit_pipeline predict
     mean_squared_error numeric categorical X_train X_val y_train y_val).

Lemma say_nil (w : world) : say [] w = w.
Proof. destruct w. unfold say. simpl. rewrite app_nil_r. reflexivity. Qed.

Lemma say_app (ls ls' : list line) (w : world) :
  say (ls ++ ls') w = say ls' (say ls w).
Proof. unfold say. simpl. rewrite app_assoc. reflexivity. Qed.

Lemma for_each_app {A S : Type} (f : A -> S -> M S) (xs ys : list A) :
  forall acc w,
    for_each f (xs ++ ys) acc w
    = (acc' <~ for_each f xs acc ;; for_each f ys acc') w.
Proof.
  induction xs as [|x xs IH]; intros acc w; simpl.
  - reflexivity.
  - unfold seq_bind. destruct (f x acc w) as [w1 [e|acc1]].
    + reflexivity.
    + rewrite IH. reflexivity.
Qed.

Lemma for_each_cons {A S : Type} (f : A -> S -> M S) (x : A) (xs : list A)
    (acc : S) (w : world) :
  for_each f (x :: xs) acc w
  = match f x acc w with
    | (w1, inl e) => (w1, inl e)
    | (w1, inr acc1) => for_each f xs acc1 w1
    end.
Proof. reflexivity. Qed.

Lemma print_lines (ls : list line) :
  forall w, for_each (fun l _ => print l) ls tt w = (say ls w, ok tt).
Proof.
  induction ls as [|l ls IH]; intros w; simpl.
  - rewrite say_nil. reflexivity.
  - unfold seq_bind, print at 1. simpl. rewrite IH.
    change (l :: ls) with ([l] ++ ls). rewrite say_app. reflexivity.
Qed.

(** A turn of the loop on a key that is not in the catalogue. *)
Lemma body_invalid (model_num : string) (base_models : list (string * estimator))
    (w : world) :
  lookup model_num models = None ->
  turn model_num base_models w = (say [invalid_message model_num] w, ok base_models).
Proof.
  intros Hnone. unfold loop_body. rewrite Hnone. reflexivity.
Qed.

(** A turn of the loop on a key of the catalogue, when it returns. *)
Lemma body_valid (model_num model_name : string) (regressor : regressor)
    (base_models base_models' : list (string * estimator)) (w w' : world) :
  lookup model_num models = Some (model_name, regressor) ->
  turn model_num base_models w = (w', ok base_models') ->
  exists fitted p s v raw,
    base_models' = base_models ++ [(model_name, fitted)]
    /\ w' = mkworld
              (console w
               ++ [model_header model_name; BestParameters p;
                   BestCrossValidationRMSE s; TrainingTime; ValidationRMSE v])
              (files w) raw.
Proof.
  intros Hsome. unfold loop_body. rewrite Hsome.
  unfold random_search_fit, search_best, ParameterSampler, seq_bind, print,
    lift, ret, ok, raise.
  simpl random_state. cbv beta iota.
  destruct (sample_without_replacement _ _ _) as [drawn raw]. cbv beta iota.
  destruct (best_of _) as [best|]; [|discriminate].
  destruct (fit_pipeline _ best X_train y_train) as [e|fitted]; [discriminate|].
  cbv beta iota. simpl best_estimator_. simpl best_params_. simpl best_score_.
  destruct (predict fitted X_val) as [e|val_predictions]; [discriminate|].
  cbv beta iota. simpl console. simpl files. simpl numpy_global.
  intros H. injection H as Hw Hb. subst.
  do 5 eexists. split; [reflexivity|].
  rewrite <- !app_assoc. reflexivity.
Qed.

Lemma loop_all_invalid (selected : list string) :
  Forall (fun model_num => lookup model_num models = None) selected ->
  forall base_models w,
    for_each turn selected base_models w
    = (say (map invalid_message selected) w, ok base_models).
Proof.
  induction 1 as [|model_num selected Hnone _ IH]; intros base_models w.
  - simpl. rewrite say_nil. reflexivity.
  - rewrite for_each_cons, body_invalid by exact Hnone. unfold ok. rewrite IH.
    cbn [map].
    change (invalid_message model_num :: map invalid_message selected)
      with ([invalid_message model_num] ++ map invalid_message selected).
    rewrite say_app. reflexivity.
Qed.

(** C5. A token that is not a key of the catalogue makes its turn of
    the loop print the invalid-number line and hand the retained models
    on unchanged, without raising; so a selection with such a token in
    it runs the tokens before it, prints the line, and goes on with the
    tokens after it. *)
Theorem invalid_index_reported_and_skipped (model_num : string) :
  lookup model_num models = None ->
  (forall base_models w,
     turn model_num base_models w
     = (say [invalid_message model_num] w, ok base_models))
  /\ (forall before after w,
        the_loop (before ++ model_num :: after) w
        = (base_models <~ the_loop before ;;
           print (invalid_message model_num) ;;;
           for_each turn after base_models) w).
Proof.
  intros Hnone. split.
  - intros base_models w. apply body_invalid, Hnone.
  - intros before after w. unfold selection_loop.
    rewrite for_each_app. unfold seq_bind.
    destruct (for_each turn before [] w) as [w1 [e|base_models]]; [reflexivity|].
    rewrite for_each_cons, body_invalid by exact Hnone. reflexivity.
Qed.

(** C9. The whole input is compared with "all" after lower-casing;
    otherwise it is split at the commas and nothing else is done to the
    pieces, and a piece is a valid selection exactly when it is one of
    the five keys.  So "ALL" selects everything, while the piece " 2" of
    "1, 2" is reported as invalid and skipped. *)
Theorem selection_tokens_matched_exactly :
  (forall s, lower s = "all" -> parse_selection s = ["1"; "2"; "3"; "4"; "5"])
  /\ (forall s, lower s <> "all" -> parse_selection s = split "," s)
  /\ (forall model_num,
        lookup model_num models <> None
        <-> In model_num ["1"; "2"; "3"; "4"; "5"])
  /\ parse_selection "ALL" = ["1"; "2"; "3"; "4"; "5"]
  /\ parse_selection "All" = ["1"; "2"; "3"; "4"; "5"]
  /\ parse_selection "1, 2" = ["1"; " 2"]
  /\ lookup " 2" models = None
  /\ (forall base_models w,
        turn " 2" base_models w = (say [invalid_message " 2"] w, ok base_models)).
Proof.
  split.
  { intros s Hs. unfold parse_selection. rewrite Hs. reflexivity. }
  split.
  { intros s Hs. unfold parse_selection.
    destruct (String.eqb_spec (lower s) "all"); [contradiction | reflexivity]. }
  split.
  { intros model_num. unfold models. cbn [lookup].
    repeat match goal with
           | |- context [String.eqb ?k model_num] =>
               destruct (String.eqb_spec k model_num) as [<-|?]
           end;
      (split; [intros; simpl; tauto | intros; try discriminate]).
    simpl in *. intuition congruence. }
  repeat (split; [reflexivity|]).
  intros base_models w. apply body_invalid. reflexivity.
Qed.

Lemma retained_names_cons (model_num : string) (selected : list string) :
  retained_names (model_num :: selected)
  = match lookup model_num models with
    | Some (model_name, _) => [model_name]
    | None => []
    end ++ retained_names selected.
Proof. reflexivity. Qed.

Lemma model_header_is_header (model_name : string) :
  is_model_header (model_header model_name) = true.
Proof. reflexivity. Qed.

Lemma invalid_message_no_header (model_num : string) :
  is_model_header (invalid_message model_num) = false.
Proof. reflexivity. Qed.

(** What a returning loop has retained and announced. *)
Lemma loop_retains (selected : list string) :
  forall base_models w base_models' w',
    for_each turn selected base_models w = (w', ok base_models') ->
    map fst base_models' = map fst base_models ++ retained_names selected
    /\ filter is_model_header (console w')
       = filter is_model_header (console w)
         ++ map model_header (retained_names selected).
Proof.
  induction selected as [|model_num selected IH];
    intros base_models w base_models' w'.
  - simpl. unfold ret, ok. intros H. injection H as -> ->.
    rewrite !app_nil_r. split; reflexivity.
  - rewrite for_each_cons, retained_names_cons.
    destruct (turn model_num base_models w) as [w1 [e|base_models1]] eqn:Hturn;
      [discriminate|].
    intros Hrest. destruct (IH _ _ _ _ Hrest) as [IHn IHc].
    rewrite IHn, IHc. clear IHn IHc Hrest.
    destruct (lookup model_num models) as [[model_name regressor]|] eqn:Hlook.
    + destruct (body_valid _ _ _ _ _ _ _ Hlook Hturn)
        as (fitted & p & s & v & raw & -> & ->).
      cbn [console]. rewrite map_app, filter_app.
      cbn [filter map fst app]. rewrite model_header_is_header.
      cbn [is_model_header]. rewrite <- !app_assoc. split; reflexivity.
    + rewrite body_invalid in Hturn by exact Hlook.
      injection Hturn as <- <-.
      unfold say. cbn [console]. rewrite filter_app.
      cbn [filter]. rewrite invalid_message_no_header.
      rewrite !app_nil_r. split; reflexivity.
Qed.

Lemma remove_at_length {A : Type} (xs : list A) (i : nat) :
  i < List.length xs -> List.length (remove_at i xs) = List.length xs - 1.
Proof.
  intros Hi. unfold remove_at.
  rewrite length_app, length_firstn, length_skipn. lia.
Qed.

Lemma draw_length (k : nat) :
  forall pool raw,
    List.length (fst (draw pool k raw)) = Nat.min k (List.length pool).
Proof.
  induction k as [|k IH]; intros pool raw; [reflexivity|].
  destruct pool as [|a pool]; [reflexivity|].
  rewrite draw_step. cbn [List.length Nat.min]. rewrite IH.
  rewrite remove_at_length.
  - cbn [List.length]. rewrite Nat.sub_1_r. reflexivity.
  - apply Nat.mod_upper_bound. discriminate.
Qed.

(** Every model of the catalogue has candidates to search. *)
Lemma catalogue_grid_nonempty (model_num model_name : string) (r : regressor) :
  lookup model_num models = Some (model_name, r) ->
  1 <= grid_size (param_distributions model_name).
Proof.
  unfold models. cbn [lookup].
  repeat match goal with
         | |- context [String.eqb ?k model_num] =>
             destruct (String.eqb k model_num)
         end;
    intros H; try discriminate; injection H as <- <-; vm_compute; lia.
Qed.

(** As long as the library fits and predicts without raising, a turn of
    the loop returns. *)
Lemma body_returns (model_num : string)
    (base_models : list (string * estimator)) (w : world) :
  (forall m p X y, exists fitted, fit_pipeline m p X y = ok fitted) ->
  (forall fitted X, exists v, predict fitted X = ok v) ->
  exists w' base_models', turn model_num base_models w = (w', ok base_models').
Proof.
  intros Hfit Hpredict.
  destruct (lookup model_num models) as [[model_name regressor]|] eqn:Hlook.
  - pose proof (catalogue_grid_nonempty _ _ _ Hlook) as Hsize.
    unfold loop_body. rewrite Hlook.
    unfold random_search_fit, search_best, ParameterSampler, seq_bind, print,
      lift, ret, ok, raise.
    simpl random_state. simpl n_iter. cbv beta iota.
    pose proof (draw_length
                  (Nat.min 10 (grid_size (param_distributions model_name)))
                  (seq 0 (grid_size (param_distributions model_name)))
                  (numpy_global w)) as Hlen.
    unfold sample_without_replacement. simpl numpy_global.
    destruct (draw _ _ _) as [drawn raw]. cbn [fst] in Hlen.
    rewrite length_seq in Hlen. cbv beta iota.
    destruct (best_of_candidates
                (fun p => cross_val_score
                            (mkpipeline numeric categorical regressor) p
                            X_train y_train)
                (map (grid_getitem (param_distributions model_name)) drawn))
      as [best [Hbest _]].
    { destruct drawn; [cbn [List.length] in Hlen; lia | discriminate]. }
    rewrite Hbest.
    destruct (Hfit (mkpipeline numeric categorical regressor) best X_train y_train)
      as [fitted ->].
    unfold ok. cbv beta iota. cbn [best_estimator_ best_params_ best_score_].
    destruct (Hpredict fitted X_val) as [v ->].
    unfold ok. cbv beta iota. eexists. eexists. reflexivity.
  - rewrite body_invalid by exact Hlook. eexists. eexists. reflexivity.
Qed.

Lemma loop_returns (selected : list string) :
  (forall m p X y, exists fitted, fit_pipeline m p X y = ok fitted) ->
  (forall fitted X, exists v, predict fitted X = ok v) ->
  forall base_models w,
  exists w' base_models',
    for_each turn selected base_models w = (w', ok base_models').
Proof.
  intros Hfit Hpredict.
  induction selected as [|model_num selected IH]; intros base_models w.
  - eexists. eexists. reflexivity.
  - rewrite for_each_cons.
    destruct (body_returns model_num base_models w Hfit Hpredict)
      as (w1 & base_models1 & ->).
    unfold ok. apply IH.
Qed.

End Loop.

(** The stacking stage handed an empty list raises at once: nothing is
    printed and nothing is written. *)
Lemma stacking_without_estimators (X_train X_val : DataFrame)
    (y_train y_val : Series) (test : DataFrame) (w : world) :
  stacking_stage estimator fit_stacking predict mean_squared_error []
    X_train X_val y_train y_val test w
  = (w, raise no_estimators).
Proof. reflexivity. Qed.

(** C6. When every token of the selection is invalid, the loop retains
    no model; the stacking stage, given the empty list, raises the
    error for a missing list of estimators before it prints or writes
    anything; and the run of the script ends in an exception with the
    files as they were, so without a submission. *)
Theorem all_invalid_selection_fails_without_submission
    (train_csv test_csv : list (string * column)) (stdin : string) (w : world) :
  Forall (fun model_num => lookup model_num models = None)
         (parse_selection stdin) ->
  (forall numeric categorical X_train X_val y_train y_val w0,
     selection_loop estimator RandomState cross_val_score fit_pipeline predict
       mean_squared_error numeric categorical X_train X_val y_train y_val
       (parse_selection stdin) w0
     = (say (map invalid_message (parse_selection stdin)) w0, ok []))
  /\ (forall X_train X_val y_train y_val test w0,
        stacking_stage estimator fit_stacking predict mean_squared_error []
          X_train X_val y_train y_val test w0
        = (w0, raise no_estimators))
  /\ files (fst (main estimator to_datetime_column python_str RandomState
                   train_test_split cross_val_score fit_pipeline fit_stacking
                   predict mean_squared_error train_csv test_csv stdin w))
     = files w
  /\ exists e,
       snd (main estimator to_datetime_column python_str RandomState
              train_test_split cross_val_score fit_pipeline fit_stacking
              predict mean_squared_error train_csv test_csv stdin w)
       = inl e.
Proof.
  intros Hall.
  assert (Hloop : forall numeric categorical X_train X_val y_train y_val w0,
             selection_loop estimator RandomState cross_val_score fit_pipeline
               predict mean_squared_error numeric categorical X_train X_val
               y_train y_val (parse_selection stdin) w0
             = (say (map invalid_message (parse_selection stdin)) w0, ok [])).
  { intros. unfold selection_loop. apply loop_all_invalid, Hall. }
  split; [exact Hloop|].
  split; [intros; apply stacking_without_estimators|].
  unfold main, seq_bind, lift.
  destruct (prepare_target _) as [e|[X y]];
    [split; [reflexivity | eexists; reflexivity]|].
  destruct (decompose_dates _ _ _) as [e|[X1 test1]];
    [split; [reflexivity | eexists; reflexivity]|].
  destruct (stringify _ _ X1) as [e|X2];
    [split; [reflexivity | eexists; reflexivity]|].
  destruct (stringify _ _ test1) as [e|test2];
    [split; [reflexivity | eexists; reflexivity]|].
  destruct (train_test_split X2 y 42) as [[X_train X_val] [y_train y_val]].
  rewrite print_lines. unfold ok at 1. cbv beta iota.
  rewrite Hloop. unfold ok at 1. cbv beta iota.
  rewrite stacking_without_estimators.
  split; [reflexivity | eexists; reflexivity].
Qed.

End Selection.

Lemma invalid_index_reported_and_skipped_witness :
  lookup "9" models = None
  /\ forall base_models w,
       loop_body Sample.estimator Sample.RandomState Sample.cross_val_score
         Sample.fit_pipeline Sample.predict Sample.mean_squared_error
         [] [] (read_csv Sample.test_csv) (read_csv Sample.test_csv) [] []
         "9" base_models w
       = (say [invalid_message "9"] w, ok base_models).
Proof.
  split; [reflexivity|].
  exact (proj1 (invalid_index_reported_and_skipped Sample.estimator
                  Sample.RandomState Sample.cross_val_score Sample.fit_pipeline
                  Sample.predict Sample.mean_squared_error
                  [] [] (read_csv Sample.test_csv) (read_csv Sample.test_csv)
                  [] [] "9" eq_refl)).
Defined.

Lemma all_invalid_selection_fails_without_submission_witness :
  Forall (fun model_num => lookup model_num models = None)
         (parse_selection "9, 2")
  /\ files (fst (main Sample.estimator Sample.to_datetime_column
                   Sample.python_str Sample.RandomState Sample.train_test_split
                   Sample.cross_val_score Sample.fit_pipeline Sample.fit_stacking
                   Sample.predict Sample.mean_squared_error
                   Sample.train_csv Sample.test_csv "9, 2" Sample.fresh_world))
     = []
  /\ exists e,
       snd (main Sample.estimator Sample.to_datetime_column
              Sample.python_str Sample.RandomState Sample.train_test_split
              Sample.cross_val_score Sample.fit_pipeline Sample.fit_stacking
              Sample.predict Sample.mean_squared_error
              Sample.train_csv Sample.test_csv "9, 2" Sample.fresh_world)
       = inl e.
Proof.
  assert (Hall : Forall (fun model_num => lookup model_num models = None)
                        (parse_selection "9, 2")).
  { repeat constructor. }
  split; [exact Hall|].
  exact (proj2 (proj2 (all_invalid_selection_fails_without_submission
                         Sample.estimator Sample.to_datetime_column
                         Sample.python_str Sample.RandomState
                         Sample.train_test_split Sample.cross_val_score
                         Sample.fit_pipeline Sample.fit_stacking Sample.predict
                         Sample.mean_squared_error Sample.train_csv
                         Sample.test_csv "9, 2" Sample.fresh_world Hall))).
Defined.

(** * Further properties of the script *)

(** ** Target cleaning: what the two steps amount to *)

Section CleanedTarget.

Lemma step_b_fill_nonfinite (m : F64.t) (y : Series) :
  F64.isfinite m = false ->
  target_step_b (fillna m y) = filter (fun r => F64.isfinite (snd r)) y.
Proof.
  intros Hm. unfold target_step_b, dropna, replace_inf_nan, fillna.
  induction y as [|[l x] y IH]; simpl; [reflexivity|].
  destruct x; simpl; try (rewrite IH; reflexivity);
    destruct m; simpl in *; try discriminate; exact IH.
Qed.

Lemma step_b_fill_finite (m : F64.t) (y : Series) :
  F64.isfinite m = true ->
  count_where F64.isinf y = 0 ->
  target_step_b (fillna m y) = fillna m y.
Proof.
  intros Hm. unfold target_step_b, dropna, replace_inf_nan, fillna, count_where.
  induction y as [|[l x] y IH]; simpl; [reflexivity|].
  destruct x; simpl; intros Hinf; try discriminate;
    try (rewrite IH by exact Hinf; reflexivity).
  destruct m; simpl in *; try discriminate; rewrite IH by exact Hinf; reflexivity.
Qed.

(** A summation routine for which an infinity among the summands makes
    the sum infinite or NaN.  Adding with [F64.add] does so in whatever
    order and grouping the summands are taken. *)
Lemma mean_with_infinity_any (np_sum : list F64.t -> F64.t) (y : Series) :
  (forall xs, existsb F64.isinf xs = true -> F64.isfinite (np_sum xs) = false) ->
  0 < count_where F64.isinf y -> F64.isfinite (mean_with np_sum y) = false.
Proof.
  intros Hsum Hinf. unfold mean_with.
  assert (Hex : existsb F64.isinf
                  (map (fun x => if F64.isnan x then F64.zero else x) (s_values y))
                = true).
  { unfold count_where, s_values in *.
    induction y as [|[l x] y IH]; simpl in *; [lia|].
    destruct x; simpl in *; try reflexivity; apply IH; lia. }
  destruct (Nat.eqb _ 0); [reflexivity|].
  apply div_keeps_nonfinite, Hsum, Hex.
Qed.

Lemma sum_from_left_with_infinity (xs : list F64.t) :
  existsb F64.isinf xs = true -> F64.isfinite (F64.sum xs) = false.
Proof. apply fold_add_with_infinity. Qed.

(** A target column in which every value is a finite number comes out of
    the cleaning exactly as it went in. *)
Theorem clean_target_keeps_clean_column (y : Series) :
  forallb (fun r => F64.isfinite (snd r)) y = true ->
  clean_target y = y.
Proof.
  unfold clean_target, clean_target_with, target_step_a, target_step_a_with, target_step_b, dropna, replace_inf_nan,
    fillna.
  generalize (mean_with F64.sum y). intros m.
  induction y as [|[l x] y IH]; simpl; [reflexivity|].
  destruct x; simpl; try discriminate; intros H; rewrite IH by exact H;
    reflexivity.
Qed.

(** As soon as the target column holds an infinity, the cleaned target
    is the finite rows of the column and nothing else: the missing rows
    are dropped with the infinite ones, none of them is filled. *)
Theorem clean_target_with_infinity (y : Series) :
  0 < count_where F64.isinf y ->
  clean_target y = filter (fun r => F64.isfinite (snd r)) y.
Proof.
  intros Hinf. unfold clean_target, clean_target_with, target_step_a, target_step_a_with.
  apply step_b_fill_nonfinite, mean_with_infinity, Hinf.
Qed.

(** Whatever routine sums the column, provided an infinity among the
    summands keeps the sum from being finite: when the column mean is a
    finite number, the column holds no infinity and no row is dropped;
    the cleaned target is the column with every missing value replaced
    by the mean. *)
Theorem clean_target_with_finite_mean (np_sum : list F64.t -> F64.t)
    (y : Series) :
  (forall xs, existsb F64.isinf xs = true -> F64.isfinite (np_sum xs) = false) ->
  F64.isfinite (mean_with np_sum y) = true ->
  count_where F64.isinf y = 0
  /\ clean_target_with np_sum y = fillna (mean_with np_sum y) y
  /\ s_index (clean_target_with np_sum y) = s_index y.
Proof.
  intros Hsum Hm.
  assert (Hinf : count_where F64.isinf y = 0).
  { destruct (count_where F64.isinf y) eqn:E; [reflexivity|].
    rewrite (mean_with_infinity_any np_sum y Hsum) in Hm by lia. discriminate. }
  assert (Hclean : clean_target_with np_sum y = fillna (mean_with np_sum y) y).
  { unfold clean_target_with, target_step_a_with.
    apply step_b_fill_finite; assumption. }
  split; [exact Hinf|]. split; [exact Hclean|].
  rewrite Hclean. unfold s_index, fillna. rewrite map_map. reflexivity.
Qed.

(** Whatever routine sums the column: every value of the cleaned target
    is a finite number, and it is the value the row had in the column
    or, for a row whose value was missing, the column mean. *)
Theorem clean_target_values (np_sum : list F64.t -> F64.t) (y : Series)
    (l : nat) (v : F64.t) :
  In (l, v) (clean_target_with np_sum y) ->
  F64.isfinite v = true
  /\ exists x, In (l, x) y
               /\ (x = v \/ (F64.isnan x = true /\ v = mean_with np_sum y)).
Proof.
  unfold clean_target_with, target_step_a_with, target_step_b, dropna,
    replace_inf_nan, fillna.
  intros Hin. apply filter_In in Hin. destruct Hin as [Hin Hkeep].
  rewrite map_map in Hin. apply in_map_iff in Hin.
  destruct Hin as [[l0 x] [Heq Hin]]. simpl in Heq, Hkeep.
  injection Heq as -> Hv.
  destruct (F64.isnan x) eqn:Hx.
  - destruct (F64.isinf (mean_with np_sum y)) eqn:Hm; subst v; [discriminate|].
    split.
    + destruct (mean_with np_sum y); try discriminate; reflexivity.
    + exists x. split; [exact Hin|]. right. split; [exact Hx | reflexivity].
  - destruct (F64.isinf x) eqn:Hi; subst v; [discriminate|].
    split.
    + destruct x; try discriminate; reflexivity.
    + exists x. split; [exact Hin|]. left. reflexivity.
Qed.

(** A target column without a single finite number (all values missing
    or infinite, or no row at all) is cleaned to the empty series. *)
Theorem clean_target_without_number (y : Series) :
  count_where F64.isfinite y = 0 ->
  clean_target y = [].
Proof.
  intros Hfin.
  assert (Hnone : filter (fun r => F64.isfinite (snd r)) y = []).
  { unfold count_where in Hfin. apply length_zero_iff_nil. exact Hfin. }
  unfold clean_target, clean_target_with, target_step_a, target_step_a_with.
  rewrite step_b_fill_nonfinite; [exact Hnone|].
  destruct (count_where F64.isinf y) eqn:Hinf.
  - unfold mean, mean_with.
    assert (Hcount : List.length (filter (fun x => negb (F64.isnan x)) (s_values y)) = 0).
    { unfold count_where, s_values in *.
      induction y as [|[l x] y IH]; simpl in *; [reflexivity|].
      destruct x; simpl in *; try discriminate; apply IH; assumption. }
    rewrite Hcount. reflexivity.
  - apply mean_with_infinity. lia.
Qed.

End CleanedTarget.

Lemma clean_target_keeps_clean_column_witness :
  clean_target Sample.clean_targets = Sample.clean_targets.
Proof.
  apply (clean_target_keeps_clean_column Sample.clean_targets).
  vm_compute. reflexivity.
Defined.

Lemma clean_target_with_infinity_witness :
  clean_target Sample.targets_with_infinity
  = filter (fun r => F64.isfinite (snd r)) Sample.targets_with_infinity.
Proof.
  apply (clean_target_with_infinity Sample.targets_with_infinity).
  vm_compute. lia.
Defined.

Lemma clean_target_with_finite_mean_witness :
  count_where F64.isinf Sample.targets_with_gap = 0
  /\ clean_target_with F64.sum Sample.targets_with_gap
     = fillna (mean_with F64.sum Sample.targets_with_gap) Sample.targets_with_gap
  /\ s_index (clean_target_with F64.sum Sample.targets_with_gap)
     = s_index Sample.targets_with_gap.
Proof.
  apply (clean_target_with_finite_mean F64.sum Sample.targets_with_gap).
  - exact sum_from_left_with_infinity.
  - vm_compute. reflexivity.
Defined.

Lemma clean_target_values_witness :
  F64.isfinite (F64.of_Z 4) = true
  /\ exists x, In (1, x) Sample.targets_with_gap
               /\ (x = F64.of_Z 4
                   \/ (F64.isnan x = true
                       /\ F64.of_Z 4 = mean_with F64.sum Sample.targets_with_gap)).
Proof.
  apply (clean_target_values F64.sum Sample.targets_with_gap 1 (F64.of_Z 4)).
  vm_compute. right. left. reflexivity.
Defined.

Lemma clean_target_without_number_witness :
  clean_target Sample.targets_without_number = [].
Proof.
  apply (clean_target_without_number Sample.targets_without_number).
  vm_compute. reflexivity.
Defined.

(** ** Loading and aligning the rows *)

Section LoadedRows.

(** [df.sample(frac=1.0)] loses no row and repeats none: the index of
    the sampled table is a rearrangement of the index of the file. *)
Theorem sample_keeps_every_row_once (cols : list (string * column))
    (raw : list nat) :
  Permutation (index (sample_all raw (read_csv cols))) (index (read_csv cols)).
Proof.
  unfold sample_all.
  pose proof (read_csv_index cols) as Hidx.
  set (df := read_csv cols) in *.
  set (ps := fst (draw (seq 0 (nrows df)) (nrows df) raw)).
  destruct (draw_from_pool (nrows df) (seq 0 (nrows df)) raw (seq_NoDup _ _))
    as [Hnd Hincl].
  fold ps in Hnd, Hincl.
  assert (Hlt : Forall (fun p => p < nrows df) ps).
  { apply Forall_forall. intros p Hp. apply Hincl, in_seq in Hp. lia. }
  change (index (take ps df)) with (take_list ps (index df)).
  rewrite Hidx, take_list_seq by exact Hlt.
  apply NoDup_Permutation_bis; [exact Hnd | | exact Hincl].
  unfold ps. rewrite draw_length, !length_seq, Nat.min_id. apply Nat.le_refl.
Qed.

Lemma lookup_feature_columns (train : DataFrame) (k : string) :
  lookup k (feature_columns train)
  = if String.eqb k target_name || String.eqb k "id"
    then None else lookup k (columns train).
Proof.
  unfold feature_columns.
  rewrite (lookup_filter_names
             (fun k => negb (existsb (String.eqb k) [target_name; "id"]))).
  simpl existsb. rewrite orb_false_r.
  destruct (String.eqb k target_name || String.eqb k "id"); reflexivity.
Qed.

(** The feature table is made of rows of the training table: the same
    row positions select its labels and the cells of each of its
    columns, those labels are the labels of the cleaned target, and the
    target and the identifier are not among its columns. *)
Theorem features_are_training_rows (train X : DataFrame) (y : Series) :
  NoDup (index train) ->
  prepare_target train = ok (X, y) ->
  exists ps,
    take_list ps (index train) = s_index y
    /\ index X = take_list ps (index train)
    /\ columns X
       = map (fun kc => (fst kc, take_column ps (snd kc))) (feature_columns train)
    /\ lookup target_name (columns X) = None
    /\ lookup "id" (columns X) = None.
Proof.
  intros Hnd. unfold prepare_target, getitem.
  destruct (lookup target_name (columns train)) as [c|]; [|discriminate].
  rewrite bind_ok.
  destruct (float_values c) as [e|vs]; [discriminate|].
  change (bind (inr vs) ?k) with (k vs). cbv beta.
  set (y0 := clean_target (combine (index train) vs)).
  unfold drop.
  destruct (filter _ [target_name; "id"]) as [|k ks]; [|discriminate].
  rewrite bind_ok. fold (feature_columns train).
  unfold loc. cbn [index].
  destruct (forallb _ (s_index y0)) eqn:Hall; [|discriminate].
  rewrite bind_ok. intros H. injection H as <- <-.
  assert (Hincl : incl (s_index y0) (index train)).
  { intros l Hl. rewrite forallb_forall in Hall. specialize (Hall l Hl).
    apply existsb_exists in Hall. destruct Hall as [x [Hx Heq]].
    apply Nat.eqb_eq in Heq. subst. exact Hx. }
  destruct (label_positions (index train) (s_index y0) Hnd Hincl) as [_ Htake].
  eexists. split; [exact Htake|].
  split; [reflexivity|]. split; [reflexivity|].
  unfold take. cbn [columns].
  rewrite !lookup_map_values, !lookup_feature_columns.
  rewrite String.eqb_refl. cbn [orb]. rewrite orb_true_r. split; reflexivity.
Qed.

End LoadedRows.

Lemma features_are_training_rows_witness :
  exists X y ps,
    prepare_target (read_csv Sample.train_csv) = ok (X, y)
    /\ take_list ps (index (read_csv Sample.train_csv)) = s_index y
    /\ index X = take_list ps (index (read_csv Sample.train_csv))
    /\ columns X
       = map (fun kc => (fst kc, take_column ps (snd kc)))
           (feature_columns (read_csv Sample.train_csv))
    /\ lookup target_name (columns X) = None
    /\ lookup "id" (columns X) = None.
Proof.
  destruct (prepare_target (read_csv Sample.train_csv)) as [e|[X y]] eqn:Hrun.
  - vm_compute in Hrun. discriminate.
  - assert (Hnd : NoDup (index (read_csv Sample.train_csv))).
    { apply seq_NoDup. }
    destruct (features_are_training_rows (read_csv Sample.train_csv) X y Hnd Hrun)
      as [ps Hps].
    exists X, y, ps. split; [reflexivity | exact Hps].
Defined.

(** ** Missing columns *)

Section MissingColumns.

Variable estimator : Type.
Variable to_datetime_column : column -> list (option date).
Variable python_str : scalar -> string.
Variable RandomState : Z -> list nat.
Variable train_test_split :
  DataFrame -> Series -> Z -> (DataFrame * DataFrame) * (Series * Series).
Variable cross_val_score : pipeline -> params -> DataFrame -> Series -> F64.t.
Variable fit_pipeline : pipeline -> params -> DataFrame -> Series -> exc estimator.
Variable fit_stacking :
  list (string * estimator) -> DataFrame -> Series -> exc estimator.
Variable predict : estimator -> DataFrame -> exc (list F64.t).
Variable mean_squared_error : Series -> list F64.t -> F64.t.

Local Notation "'run'" :=
  (main estimator to_datetime_column python_str RandomState train_test_split
     cross_val_score fit_pipeline fit_stacking predict mean_squared_error).

Lemma sampled_lookup (raw : list nat) (cols : list (string * column)) (k : string) :
  lookup k (columns (sample_all raw (read_csv cols)))
  = option_map
      (take_column (fst (draw (seq 0 (nrows (read_csv cols)))
                           (nrows (read_csv cols)) raw)))
      (lookup k cols).
Proof.
  unfold sample_all, take. cbn [columns]. apply lookup_map_values.
Qed.

(** A training file without the target column ends the run with a
    KeyError for that column before anything is printed, asked or
    written. *)
Theorem run_without_target_column
    (train_csv test_csv : list (string * column)) (stdin : string) (w : world) :
  lookup target_name train_csv = None ->
  run train_csv test_csv stdin w = (w, raise (KeyError target_name)).
Proof.
  intros Hnone. unfold main, seq_bind, lift, prepare_target, getitem.
  rewrite sampled_lookup, Hnone. reflexivity.
Qed.

(** A training file with a numeric target but without the [id] column
    ends the run with a KeyError for [id], again before anything is
    printed, asked or written. *)
Theorem run_without_id_column
    (train_csv test_csv : list (string * column)) (stdin : string) (w : world)
    (c : column) :
  lookup target_name train_csv = Some c ->
  is_number c = true ->
  lookup "id" train_csv = None ->
  run train_csv test_csv stdin w = (w, raise (KeyError "id")).
Proof.
  intros Hc Hnum Hid. unfold main, seq_bind, lift, prepare_target, getitem.
  rewrite sampled_lookup, Hc. cbn [option_map]. rewrite bind_ok.
  match goal with
  | |- context [float_values (take_column ?ps c)] =>
      assert (Hvs : exists vs, float_values (take_column ps c) = ok vs)
        by (destruct c; try discriminate; eexists; reflexivity)
  end.
  destruct Hvs as [vs ->]. rewrite bind_ok.
  unfold drop, has_key. cbn [filter].
  rewrite !sampled_lookup, Hc, Hid. reflexivity.
Qed.

(** The date column has to be in both tables: if the feature table or
    the test table lacks it, the decomposition raises a KeyError for
    it. *)
Theorem decompose_dates_without_date_column (X test : DataFrame) :
  has_key "Dogum Tarihi" (columns X) = false
  \/ has_key "Dogum Tarihi" (columns test) = false ->
  decompose_dates to_datetime_column date_columns (X, test)
  = raise (KeyError "Dogum Tarihi").
Proof.
  assert (Hmiss : forall df,
             has_key "Dogum Tarihi" (columns df) = false ->
             date_features to_datetime_column "Dogum Tarihi" df
             = raise (KeyError "Dogum Tarihi")).
  { intros df H. unfold has_key in H. unfold date_features, getitem.
    destruct (lookup "Dogum Tarihi" (columns df)); [discriminate | reflexivity]. }
  intros H. unfold date_columns, decompose_dates. cbn [fst snd].
  destruct (has_key "Dogum Tarihi" (columns X)) eqn:HX.
  - destruct H as [H|H]; [discriminate|].
    destruct (date_features_decomposes to_datetime_column "Dogum Tarihi" X HX)
      as [X' [-> _]].
    rewrite bind_ok, (Hmiss test H). reflexivity.
  - rewrite (Hmiss X HX). reflexivity.
Qed.

(** The decomposition of a date column consumes it: applied to its own
    result it raises a KeyError for the column. *)
Theorem date_features_not_repeatable (col : string) (df df' : DataFrame) :
  date_features to_datetime_column col df = ok df' ->
  date_features to_datetime_column col df' = raise (KeyError col).
Proof.
  intros Hrun.
  assert (Hhas : has_key col (columns df) = true).
  { unfold has_key. unfold date_features, getitem in Hrun.
    destruct (lookup col (columns df)); [reflexivity | discriminate]. }
  destruct (date_features_decomposes to_datetime_column col df Hhas)
    as [df1 [Hrun1 Hdec]].
  rewrite Hrun in Hrun1. injection Hrun1 as <-.
  destruct Hdec as (c & y & m & w & _ & _ & Hgone & _).
  unfold date_features, getitem. rewrite Hgone. reflexivity.
Qed.

End MissingColumns.

Lemma run_without_target_column_witness :
  main Sample.estimator Sample.to_datetime_column Sample.python_str
    Sample.RandomState Sample.train_test_split Sample.cross_val_score
    Sample.fit_pipeline Sample.fit_stacking Sample.predict
    Sample.mean_squared_error Sample.test_csv Sample.test_csv "all"
    Sample.fresh_world
  = (Sample.fresh_world, raise (KeyError target_name)).
Proof.
  apply (run_without_target_column Sample.estimator Sample.to_datetime_column
           Sample.python_str Sample.RandomState Sample.train_test_split
           Sample.cross_val_score Sample.fit_pipeline Sample.fit_stacking
           Sample.predict Sample.mean_squared_error
           Sample.test_csv Sample.test_csv "all" Sample.fresh_world).
  reflexivity.
Defined.

Lemma run_without_id_column_witness :
  main Sample.estimator Sample.to_datetime_column Sample.python_str
    Sample.RandomState Sample.train_test_split Sample.cross_val_score
    Sample.fit_pipeline Sample.fit_stacking Sample.predict
    Sample.mean_squared_error Sample.train_csv_without_id Sample.test_csv "all"
    Sample.fresh_world
  = (Sample.fresh_world, raise (KeyError "id")).
Proof.
  apply (run_without_id_column Sample.estimator Sample.to_datetime_column
           Sample.python_str Sample.RandomState Sample.train_test_split
           Sample.cross_val_score Sample.fit_pipeline Sample.fit_stacking
           Sample.predict Sample.mean_squared_error
           Sample.train_csv_without_id Sample.test_csv "all" Sample.fresh_world
           (Float64 [Sample.three; F64.of_Z 4])).
  - reflexivity.
  - reflexivity.
  - reflexivity.
Defined.

Lemma decompose_dates_without_date_column_witness :
  decompose_dates Sample.to_datetime_column date_columns
    (read_csv Sample.train_csv, read_csv Sample.train_csv_without_id)
  = raise (KeyError "Dogum Tarihi").
Proof.
  apply (decompose_dates_without_date_column Sample.to_datetime_column
           (read_csv Sample.train_csv) (read_csv Sample.train_csv_without_id)).
  right. reflexivity.
Defined.

Lemma date_features_not_repeatable_witness :
  exists df',
    date_features Sample.to_datetime_column "Dogum Tarihi"
      (read_csv Sample.test_csv) = ok df'
    /\ date_features Sample.to_datetime_column "Dogum Tarihi" df'
       = raise (KeyError "Dogum Tarihi").
Proof.
  destruct (date_features Sample.to_datetime_column "Dogum Tarihi"
              (read_csv Sample.test_csv)) as [e|df'] eqn:Hrun.
  - vm_compute in Hrun. discriminate.
  - exists df'. split; [reflexivity|].
    exact (date_features_not_repeatable Sample.to_datetime_column
             "Dogum Tarihi" (read_csv Sample.test_csv) df' Hrun).
Defined.

(** ** Categorical columns as strings (lines 47 and 48) *)

Section Stringify.

Variable python_str : scalar -> string.





Lemma has_key_setitem (df : DataFrame) (col k : string) (c : column) :
  has_key col (columns df) = true ->
  has_key k (columns (setitem df col c)) = has_key k (columns df).
Proof.
  intros Hcol. unfold has_key in *. unfold setitem. cbn [columns].
  destruct (string_dec k col) as [->|Hne].
  - rewrite lookup_assign_same.
    destruct (lookup col (columns df)); [reflexivity | discriminate].
  - rewrite lookup_assign_other by exact Hne. reflexivity.
Qed.

Lemma forallb_same {A : Type} (f g : A -> bool) (xs : list A) :
  (forall x, f x = g x) -> forallb f xs = forallb g xs.
Proof.
  intros H. induction xs as [|x xs IH]; simpl; [reflexivity|].
  rewrite H, IH. reflexivity.
Qed.

(** A table that lacks one of the columns to convert (a test file
    without a categorical column of the training file) makes the
    conversion raise a KeyError for such a column. *)
Theorem stringify_without_column (cols : list string) (df : DataFrame) :
  forallb (fun k => has_key k (columns df)) cols = false ->
  exists k,
    In k cols /\ has_key k (columns df) = false
    /\ stringify python_str cols df = raise (KeyError k).
Proof.
  revert df. induction cols as [|col cols IH]; intros df Hsome;
    [discriminate|].
  cbn [forallb] in Hsome. cbn [stringify]. unfold getitem.
  destruct (has_key col (columns df)) eqn:Hcol.
  - cbn [andb] in Hsome. unfold has_key in Hcol.
    destruct (lookup col (columns df)) as [c|] eqn:Hc; [|discriminate].
    rewrite bind_ok.
    assert (Hcol' : has_key col (columns df) = true).
    { unfold has_key. rewrite Hc. reflexivity. }
    destruct (IH (setitem df col (astype_str python_str c))) as (k & Hin & Hk & Hrun).
    { rewrite <- Hsome. apply forallb_same. intros k.
      apply has_key_setitem, Hcol'. }
    exists k. split; [right; exact Hin|]. split; [|exact Hrun].
    rewrite has_key_setitem in Hk by exact Hcol'. exact Hk.
  - exists col. split; [left; reflexivity|]. split; [exact Hcol|].
    unfold has_key in Hcol.
    destruct (lookup col (columns df)); [discriminate | reflexivity].
Qed.

End Stringify.


Lemma stringify_without_column_witness :
  exists k,
    In k ["Yas"; "Sehir"]
    /\ has_key k (columns (read_csv Sample.train_csv_without_id)) = false
    /\ stringify Sample.python_str ["Yas"; "Sehir"]
         (read_csv Sample.train_csv_without_id) = raise (KeyError k).
Proof.
  apply (stringify_without_column Sample.python_str ["Yas"; "Sehir"]
           (read_csv Sample.train_csv_without_id)).
  reflexivity.
Defined.

(** ** From the selection to the submission *)

Section Submission.

Variable estimator : Type.
Variable to_datetime_column : column -> list (option date).
Variable python_str : scalar -> string.
Variable RandomState : Z -> list nat.
Variable train_test_split :
  DataFrame -> Series -> Z -> (DataFrame * DataFrame) * (Series * Series).
Variable cross_val_score : pipeline -> params -> DataFrame -> Series -> F64.t.
Variable fit_pipeline : pipeline -> params -> DataFrame -> Series -> exc estimator.
Variable fit_stacking :
  list (string * estimator) -> DataFrame -> Series -> exc estimator.
Variable predict : estimator -> DataFrame -> exc (list F64.t).
Variable mean_squared_error : Series -> list F64.t -> F64.t.

Local Notation "'turn_of'" :=
  (loop_body estimator RandomState cross_val_score fit_pipeline predict
     mean_squared_error).

Local Notation "'loop_of'" :=
  (selection_loop estimator RandomState cross_val_score fit_pipeline predict
     mean_squared_error).

Local Notation "'stacking'" :=
  (stacking_stage estimator fit_stacking predict mean_squared_error).

Local Notation "'script'" :=
  (main estimator to_datetime_column python_str RandomState train_test_split
     cross_val_score fit_pipeline fit_stacking predict mean_squared_error).

Lemma lookup_some_in {V : Type} (k : string) (v : V) (d : list (string * V)) :
  lookup k d = Some v -> In (k, v) d.
Proof.
  induction d as [|[k' v'] d IH]; simpl; [discriminate|].
  destruct (String.eqb_spec k' k) as [->|Hne].
  - intros H. injection H as ->. left. reflexivity.
  - intros H. right. apply IH, H.
Qed.

Lemma retained_in_catalogue (selected : list string) :
  Forall (fun n => In n catalogue_names) (retained_names selected).
Proof.
  induction selected as [|model_num selected IH]; [constructor|].
  rewrite retained_names_cons.
  destruct (lookup model_num models) as [[model_name r]|] eqn:Hlook;
    [|exact IH].
  constructor; [|exact IH].
  apply lookup_some_in in Hlook. unfold catalogue_names.
  apply in_map_iff. exists (model_num, (model_name, r)). split; [reflexivity | exact Hlook].
Qed.

Lemma unique_NoDup (xs : list string) : unique xs = true <-> NoDup xs.
Proof.
  induction xs as [|x xs IH]; simpl.
  - split; [constructor | reflexivity].
  - rewrite andb_true_iff, negb_true_iff, IH. split.
    + intros [Hx Hnd]. constructor; [|exact Hnd].
      intros Hin. assert (Hex : existsb (String.eqb x) xs = true).
      { apply existsb_exists. exists x. split; [exact Hin | apply String.eqb_refl]. }
      congruence.
    + intros Hnd. inversion Hnd as [|? ? Hx Hnd']; subst. split; [|exact Hnd'].
      destruct (existsb (String.eqb x) xs) eqn:Hex; [|reflexivity].
      apply existsb_exists in Hex. destruct Hex as [y [Hy Heq]].
      apply String.eqb_eq in Heq. subst. contradiction.
Qed.

(** What the first checks of the stacking fit say about estimators
    named after models of the catalogue: only emptiness and repeated
    names can be held against them. *)
Lemma validate_catalogue_names {E : Type} (ests : list (string * E)) :
  Forall (fun n => In n catalogue_names) (map fst ests) ->
  validate_estimators ests
  = if Nat.eqb (List.length ests) 0 then raise no_estimators
    else if negb (unique (map fst ests)) then raise names_not_unique
    else ok tt.
Proof.
  intros Hcat. unfold validate_estimators.
  assert (Hnone : forall f : string -> bool,
             (forall n, In n catalogue_names -> f n = false) ->
             existsb f (map fst ests) = false).
  { intros f Hf. induction Hcat as [|n ns Hn _ IH]; simpl; [reflexivity|].
    rewrite IH, (Hf n Hn). reflexivity. }
  assert (Hconflict :
            existsb (fun n => existsb (String.eqb n) stacking_constructor_arguments)
                    (map fst ests) = false).
  { apply Hnone. intros n Hn. unfold catalogue_names in Hn. simpl in Hn.
    repeat (destruct Hn as [<-|Hn]; [reflexivity|]). destruct Hn. }
  assert (Hdunder : existsb has_dunder (map fst ests) = false).
  { apply Hnone. intros n Hn. unfold catalogue_names in Hn. simpl in Hn.
    repeat (destruct Hn as [<-|Hn]; [reflexivity|]). destruct Hn. }
  rewrite Hconflict, Hdunder. reflexivity.
Qed.

(** The estimators the loop hands over pass the first checks of the
    stacking fit exactly when the selection holds at least one valid
    token and no valid token twice. *)
Theorem stacking_accepts_selection
    (numeric categorical : list string) (X_train X_val : DataFrame)
    (y_train y_val : Series) (selected : list string) (w w' : world)
    (base_models : list (string * estimator)) :
  loop_of numeric categorical X_train X_val y_train y_val selected w
  = (w', ok base_models) ->
  validate_estimators base_models = ok tt
  <-> retained_names selected <> [] /\ NoDup (retained_names selected).
Proof.
  intros Hloop. unfold selection_loop in Hloop.
  destruct (loop_retains _ _ _ _ _ _ _ _ _ _ _ _ _ _ _ _ _ Hloop) as [Hnames _].
  cbn [map app] in Hnames.
  rewrite validate_catalogue_names
    by (rewrite Hnames; apply retained_in_catalogue).
  rewrite Hnames, <- unique_NoDup.
  destruct base_models as [|b bs].
  - cbn [map] in Hnames. rewrite <- Hnames. simpl.
    split; [discriminate | intros [H _]; congruence].
  - cbn [List.length Nat.eqb].
    destruct (unique (retained_names selected)) eqn:Hu; simpl.
    + split; [|reflexivity]. intros _. split; [|reflexivity].
      rewrite <- Hnames. discriminate.
    + split; [discriminate | intros [_ H]; discriminate].
Qed.

(** A selection that names a model of the catalogue twice gets through
    the loop, both searches included, and then fails in the stacking
    fit with the error for repeated names, before the stacking stage
    prints or writes anything. *)
Theorem repeated_selection_fails_in_stacking
    (numeric categorical : list string) (X_train X_val : DataFrame)
    (y_train y_val : Series) (test : DataFrame) (selected : list string)
    (w w' : world) (base_models : list (string * estimator)) :
  loop_of numeric categorical X_train X_val y_train y_val selected w
  = (w', ok base_models) ->
  unique (retained_names selected) = false ->
  stacking base_models X_train X_val y_train y_val test w'
  = (w', raise names_not_unique).
Proof.
  intros Hloop Hdup. unfold selection_loop in Hloop.
  destruct (loop_retains _ _ _ _ _ _ _ _ _ _ _ _ _ _ _ _ _ Hloop) as [Hnames _].
  cbn [map app] in Hnames.
  unfold stacking_stage, seq_bind, lift, stacking_fit. cbn [estimators].
  rewrite validate_catalogue_names
    by (rewrite Hnames; apply retained_in_catalogue).
  rewrite Hnames, Hdup.
  destruct base_models as [|b bs].
  - cbn [map] in Hnames. rewrite <- Hnames in Hdup. discriminate.
  - reflexivity.
Qed.

(** A turn of the loop only prints and draws: it writes no file,
    whether it returns or raises. *)
Lemma turn_keeps_files (numeric categorical : list string)
    (X_train X_val : DataFrame) (y_train y_val : Series) (model_num : string)
    (base_models : list (string * estimator)) (w : world) :
  files (fst (turn_of numeric categorical X_train X_val y_train y_val
                model_num base_models w)) = files w.
Proof.
  unfold loop_body.
  destruct (lookup model_num models) as [[model_name r]|]; [|reflexivity].
  unfold random_search_fit, search_best, ParameterSampler, seq_bind, print,
    lift, ret, ok, raise.
  simpl random_state. cbv beta iota.
  destruct (sample_without_replacement _ _ _) as [drawn raw]. cbv beta iota.
  destruct (best_of _) as [best|]; [|reflexivity].
  destruct (fit_pipeline _ best X_train y_train) as [e|fitted]; [reflexivity|].
  cbv beta iota. cbn [best_estimator_ best_params_ best_score_].
  destruct (predict fitted X_val) as [e|val_predictions]; reflexivity.
Qed.

Lemma loop_keeps_files (numeric categorical : list string)
    (X_train X_val : DataFrame) (y_train y_val : Series)
    (selected : list string) :
  forall base_models w,
    files (fst (for_each (turn_of numeric categorical X_train X_val y_train y_val)
                  selected base_models w)) = files w.
Proof.
  induction selected as [|model_num selected IH]; intros base_models w.
  - reflexivity.
  - rewrite for_each_cons.
    pose proof (turn_keeps_files numeric categorical X_train X_val y_train y_val
                  model_num base_models w) as Hturn.
    destruct (turn_of numeric categorical X_train X_val y_train y_val
                model_num base_models w) as [w1 [e|base_models1]].
    + exact Hturn.
    + rewrite IH. exact Hturn.
Qed.

(** The stacking stage writes its file last: when it raises, wherever
    it raises, the files are as they were. *)
Lemma stacking_failure_keeps_files
    (base_models : list (string * estimator)) (X_train X_val : DataFrame)
    (y_train y_val : Series) (test : DataFrame) (w w' : world) (e : exn) :
  stacking base_models X_train X_val y_train y_val test w = (w', inl e) ->
  files w' = files w.
Proof.
  unfold stacking_stage, seq_bind, lift, print, to_csv, ret, ok.
  destruct (stacking_fit _ _ _ _ _) as [e1|fitted];
    [intros H; injection H as <- _; reflexivity|].
  destruct (predict fitted X_val) as [e1|val_predictions];
    [intros H; injection H as <- _; reflexivity|].
  cbv beta iota.
  destruct (drop ["id"] test) as [e1|features];
    [intros H; injection H as <- _; reflexivity|].
  destruct (predict fitted features) as [e1|test_predictions];
    [intros H; injection H as <- _; reflexivity|].
  destruct (getitem test "id") as [e1|ids];
    [intros H; injection H as <- _; reflexivity|].
  discriminate.
Qed.

(** When the stacking stage returns, the ensemble was fitted on the
    estimators it was given, and the submission holds two columns and
    no row labels: the [id] column of the test table and, under the
    name of the target, what the fitted ensemble predicts for the test
    table without its [id] column.  A submission of an earlier run is
    replaced. *)
Theorem stacking_stage_writes_submission
    (base_models : list (string * estimator)) (X_train X_val : DataFrame)
    (y_train y_val : Series) (test : DataFrame) (w w' : world) :
  stacking base_models X_train X_val y_train y_val test w = (w', ok tt) ->
  exists fitted features ids test_predictions,
    fit_stacking base_models X_train y_train = ok fitted
    /\ drop ["id"] test = ok features
    /\ predict fitted features = ok test_predictions
    /\ getitem test "id" = ok ids
    /\ lookup submission_path (files w')
       = Some [("id", ids); (target_name, Float64 test_predictions)].
Proof.
  unfold stacking_stage, seq_bind, lift, stacking_fit, print, to_csv, ret, ok.
  cbn [estimators].
  destruct (validate_estimators base_models) as [e1|[]]; [discriminate|].
  cbn [bind].
  destruct (fit_stacking base_models X_train y_train) as [e1|fitted] eqn:Hfit;
    [discriminate|].
  destruct (predict fitted X_val) as [e1|val_predictions]; [discriminate|].
  cbv beta iota.
  destruct (drop ["id"] test) as [e1|features] eqn:Hdrop; [discriminate|].
  destruct (predict fitted features) as [e1|test_predictions] eqn:Hpred;
    [discriminate|].
  destruct (getitem test "id") as [e1|ids] eqn:Hids; [discriminate|].
  cbn [console files numpy_global columns].
  intros H. injection H as <-. cbn [files].
  exists fitted, features, ids, test_predictions.
  split; [reflexivity|]. split; [reflexivity|].
  split; [exact Hpred|]. split; [reflexivity|].
  apply lookup_assign_same.
Qed.

(** In a run of the script that ends in an exception, the statement
    that writes the submission was not reached. *)
Lemma failed_run_before_to_csv
    (train_csv test_csv : list (string * column)) (stdin : string)
    (w w' : world) (e : exn) :
  script train_csv test_csv stdin w = (w', inl e) ->
  files w' = files w.
Proof.
  unfold main, seq_bind, lift.
  destruct (prepare_target _) as [e1|[X y]];
    [intros H; injection H as <- _; reflexivity|].
  destruct (decompose_dates _ _ _) as [e1|[X1 test1]];
    [intros H; injection H as <- _; reflexivity|].
  destruct (stringify _ _ X1) as [e1|X2];
    [intros H; injection H as <- _; reflexivity|].
  destruct (stringify _ _ test1) as [e1|test2];
    [intros H; injection H as <- _; reflexivity|].
  destruct (train_test_split X2 y 42) as [[X_train X_val] [y_train y_val]].
  rewrite print_lines. unfold ok at 1. cbv beta iota.
  unfold selection_loop.
  pose proof (loop_keeps_files (select_dtypes is_number X1)
                (select_dtypes is_object X1) X_train X_val y_train y_val
                (parse_selection stdin) []
                (say (menu ++ [prompt]) w)) as Hloop.
  destruct (for_each _ (parse_selection stdin) [] _) as [w1 [e1|base_models]].
  - intros H. injection H as <- _. exact Hloop.
  - intros Hstack. apply stacking_failure_keeps_files in Hstack.
    rewrite Hstack. exact Hloop.
Qed.

(** A run of the script that ends in an exception, whichever statement
    raised it, has not written the submission: what is under the name
    of the submission after the run is what was there before it, so
    there is never a partial submission. *)
Theorem failed_run_writes_nothing
    (train_csv test_csv : list (string * column)) (stdin : string)
    (w w' : world) (e : exn) :
  script train_csv test_csv stdin w = (w', inl e) ->
  lookup submission_path (files w') = lookup submission_path (files w).
Proof.
  intros Hrun. rewrite (failed_run_before_to_csv _ _ _ _ _ _ Hrun). reflexivity.
Qed.

(** A run of the script that returns had a selection with at least one
    valid token and no valid token twice, and has written the
    submission. *)
Theorem finished_run_had_valid_selection
    (train_csv test_csv : list (string * column)) (stdin : string)
    (w w' : world) :
  script train_csv test_csv stdin w = (w', ok tt) ->
  retained_names (parse_selection stdin) <> []
  /\ NoDup (retained_names (parse_selection stdin))
  /\ exists submission,
       lookup submission_path (files w') = Some submission
       /\ map fst submission = ["id"; target_name].
Proof.
  unfold main, seq_bind, lift.
  destruct (prepare_target _) as [e1|[X y]]; [discriminate|].
  destruct (decompose_dates _ _ _) as [e1|[X1 test1]]; [discriminate|].
  destruct (stringify _ _ X1) as [e1|X2]; [discriminate|].
  destruct (stringify _ _ test1) as [e1|test2]; [discriminate|].
  destruct (train_test_split X2 y 42) as [[X_train X_val] [y_train y_val]].
  rewrite print_lines. unfold ok at 1. cbv beta iota.
  destruct (loop_of _ _ X_train X_val y_train y_val (parse_selection stdin) _)
    as [w1 [e1|base_models]] eqn:Hloop; [discriminate|].
  unfold selection_loop in Hloop.
  destruct (loop_retains _ _ _ _ _ _ _ _ _ _ _ _ _ _ _ _ _ Hloop) as [Hnames _].
  cbn [map app] in Hnames.
  unfold stacking_stage, seq_bind, lift, stacking_fit, print, to_csv, ret, ok.
  cbn [estimators].
  rewrite validate_catalogue_names
    by (rewrite Hnames; apply retained_in_catalogue).
  rewrite Hnames.
  destruct base_models as [|b bs]; [discriminate|].
  cbn [List.length Nat.eqb].
  destruct (unique (retained_names (parse_selection stdin))) eqn:Hu;
    [|discriminate].
  cbn [negb bind ok].
  destruct (fit_stacking _ _ _) as [e1|fitted]; [discriminate|].
  destruct (predict fitted X_val) as [e1|val_predictions]; [discriminate|].
  cbv beta iota.
  destruct (drop ["id"] test2) as [e1|features]; [discriminate|].
  destruct (predict fitted features) as [e1|test_predictions]; [discriminate|].
  destruct (getitem test2 "id") as [e1|ids]; [discriminate|].
  cbn [console files numpy_global].
  intros H. injection H as <-. cbn [files].
  split; [rewrite <- Hnames; discriminate|].
  split; [apply unique_NoDup, Hu|].
  eexists. split; [apply lookup_assign_same | reflexivity].
Qed.


End Submission.

Lemma stacking_accepts_selection_witness :
  exists w' base_models,
    selection_loop Sample.estimator Sample.RandomState Sample.cross_val_score
      Sample.fit_pipeline Sample.predict Sample.mean_squared_error
      [] [] (read_csv Sample.test_csv) (read_csv Sample.test_csv) [] []
      ["2"; "x"; "4"] Sample.fresh_world
    = (w', ok base_models)
    /\ (validate_estimators base_models = ok tt
        <-> retained_names ["2"; "x"; "4"] <> []
            /\ NoDup (retained_names ["2"; "x"; "4"])).
Proof.
  destruct (selection_loop Sample.estimator Sample.RandomState
              Sample.cross_val_score Sample.fit_pipeline Sample.predict
              Sample.mean_squared_error
              [] [] (read_csv Sample.test_csv) (read_csv Sample.test_csv) [] []
              ["2"; "x"; "4"] Sample.fresh_world)
    as [w' [e|base_models]] eqn:Hloop.
  - vm_compute in Hloop. discriminate.
  - exists w', base_models. split; [reflexivity|].
    exact (stacking_accepts_selection Sample.estimator Sample.RandomState
             Sample.cross_val_score Sample.fit_pipeline Sample.predict
             Sample.mean_squared_error
             [] [] (read_csv Sample.test_csv) (read_csv Sample.test_csv) [] []
             ["2"; "x"; "4"] Sample.fresh_world w' base_models Hloop).
Defined.

Lemma repeated_selection_fails_in_stacking_witness :
  exists w' base_models,
    selection_loop Sample.estimator Sample.RandomState Sample.cross_val_score
      Sample.fit_pipeline Sample.predict Sample.mean_squared_error
      [] [] (read_csv Sample.test_csv) (read_csv Sample.test_csv) [] []
      ["2"; "1"; "2"] Sample.fresh_world
    = (w', ok base_models)
    /\ stacking_stage Sample.estimator Sample.fit_stacking Sample.predict
         Sample.mean_squared_error base_models
         (read_csv Sample.test_csv) (read_csv Sample.test_csv) [] []
         (read_csv Sample.test_csv) w'
       = (w', raise names_not_unique).
Proof.
  destruct (selection_loop Sample.estimator Sample.RandomState
              Sample.cross_val_score Sample.fit_pipeline Sample.predict
              Sample.mean_squared_error
              [] [] (read_csv Sample.test_csv) (read_csv Sample.test_csv) [] []
              ["2"; "1"; "2"] Sample.fresh_world)
    as [w' [e|base_models]] eqn:Hloop.
  - vm_compute in Hloop. discriminate.
  - exists w', base_models. split; [reflexivity|].
    apply (repeated_selection_fails_in_stacking Sample.estimator
             Sample.RandomState Sample.cross_val_score Sample.fit_pipeline
             Sample.fit_stacking Sample.predict Sample.mean_squared_error
             [] [] (read_csv Sample.test_csv) (read_csv Sample.test_csv) [] []
             (read_csv Sample.test_csv) ["2"; "1"; "2"] Sample.fresh_world w'
             base_models Hloop).
    reflexivity.
Defined.

Lemma stacking_stage_writes_submission_witness :
  exists w' fitted features ids test_predictions,
    stacking_stage Sample.estimator Sample.fit_stacking Sample.predict
      Sample.mean_squared_error [("SVR", [])]
      (read_csv Sample.test_csv) (read_csv Sample.test_csv) [] []
      (read_csv Sample.test_csv) Sample.fresh_world
    = (w', ok tt)
    /\ Sample.fit_stacking [("SVR", [])] (read_csv Sample.test_csv) []
       = ok fitted
    /\ drop ["id"] (read_csv Sample.test_csv) = ok features
    /\ Sample.predict fitted features = ok test_predictions
    /\ getitem (read_csv Sample.test_csv) "id" = ok ids
    /\ lookup submission_path (files w')
       = Some [("id", ids); (target_name, Float64 test_predictions)].
Proof.
  destruct (stacking_stage Sample.estimator Sample.fit_stacking Sample.predict
              Sample.mean_squared_error [("SVR", [])]
              (read_csv Sample.test_csv) (read_csv Sample.test_csv) [] []
              (read_csv Sample.test_csv) Sample.fresh_world)
    as [w' [e|[]]] eqn:Hrun.
  - vm_compute in Hrun. discriminate.
  - destruct (stacking_stage_writes_submission Sample.estimator
                Sample.fit_stacking Sample.predict Sample.mean_squared_error
                [("SVR", [])]
                (read_csv Sample.test_csv) (read_csv Sample.test_csv) [] []
                (read_csv Sample.test_csv) Sample.fresh_world w' Hrun)
      as (fitted & features & ids & preds & H).
    exists w', fitted, features, ids, preds. split; [reflexivity | exact H].
Defined.

Lemma failed_run_writes_nothing_witness :
  exists w' e,
    main Sample.estimator Sample.to_datetime_column Sample.python_str
      Sample.RandomState Sample.train_test_split Sample.cross_val_score
      Sample.fit_pipeline Sample.fit_stacking Sample.predict
      Sample.mean_squared_error Sample.train_csv Sample.test_csv "3,3"
      Sample.fresh_world
    = (w', inl e)
    /\ lookup submission_path (files w')
       = lookup submission_path (files Sample.fresh_world).
Proof.
  destruct (main Sample.estimator Sample.to_datetime_column Sample.python_str
              Sample.RandomState Sample.train_test_split Sample.cross_val_score
              Sample.fit_pipeline Sample.fit_stacking Sample.predict
              Sample.mean_squared_error Sample.train_csv Sample.test_csv "3,3"
              Sample.fresh_world)
    as [w' [e|[]]] eqn:Hrun.
  - exists w', e. split; [reflexivity|].
    exact (failed_run_writes_nothing Sample.estimator Sample.to_datetime_column
             Sample.python_str Sample.RandomState Sample.train_test_split
             Sample.cross_val_score Sample.fit_pipeline Sample.fit_stacking
             Sample.predict Sample.mean_squared_error Sample.train_csv
             Sample.test_csv "3,3" Sample.fresh_world w' e Hrun).
  - vm_compute in Hrun. discriminate.
Defined.

Lemma finished_run_had_valid_selection_witness :
  exists w',
    main Sample.estimator Sample.to_datetime_column Sample.python_str
      Sample.RandomState Sample.train_test_split Sample.cross_val_score
      Sample.fit_pipeline Sample.fit_stacking Sample.predict
      Sample.mean_squared_error Sample.train_csv Sample.test_csv "1,2"
      Sample.fresh_world
    = (w', ok tt)
    /\ retained_names (parse_selection "1,2") <> []
    /\ NoDup (retained_names (parse_selection "1,2"))
    /\ exists submission,
         lookup submission_path (files w') = Some submission
         /\ map fst submission = ["id"; target_name].
Proof.
  destruct (main Sample.estimator Sample.to_datetime_column Sample.python_str
              Sample.RandomState Sample.train_test_split Sample.cross_val_score
              Sample.fit_pipeline Sample.fit_stacking Sample.predict
              Sample.mean_squared_error Sample.train_csv Sample.test_csv "1,2"
              Sample.fresh_world)
    as [w' [e|[]]] eqn:Hrun.
  - vm_compute in Hrun. discriminate.
  - exists w'. split; [reflexivity|].
    exact (finished_run_had_valid_selection Sample.estimator
             Sample.to_datetime_column Sample.python_str Sample.RandomState
             Sample.train_test_split Sample.cross_val_score Sample.fit_pipeline
             Sample.fit_stacking Sample.predict Sample.mean_squared_error
             Sample.train_csv Sample.test_csv "1,2" Sample.fresh_world w' Hrun).
Defined.

(** ** The candidates of a search *)

Section Candidates.

Variable estimator : Type.
Variable RandomState : Z -> list nat.
Variable cross_val_score : pipeline -> params -> DataFrame -> Series -> F64.t.
Variable fit_pipeline : pipeline -> params -> DataFrame -> Series -> exc estimator.

(** The indices the script's search draws for a grid: as many as the
    smaller of 10 and the size of the grid, all different, all indices
    of the grid. *)
Lemma script_sampler (g : grid) (w : world) :
  exists drawn raw,
    ParameterSampler RandomState g script_search_args w
    = (mkworld (console w) (files w) raw, ok (map (grid_getitem g) drawn))
    /\ NoDup drawn
    /\ incl drawn (seq 0 (grid_size g))
    /\ List.length drawn = Nat.min 10 (grid_size g).
Proof.
  unfold ParameterSampler, sample_without_replacement.
  simpl random_state. simpl n_iter.
  pose proof (draw_from_pool (Nat.min 10 (grid_size g)) (seq 0 (grid_size g))
                (numpy_global w) (seq_NoDup _ _)) as [Hnd Hincl].
  pose proof (draw_length (Nat.min 10 (grid_size g)) (seq 0 (grid_size g))
                (numpy_global w)) as Hlen.
  destruct (draw _ _ _) as [drawn raw]. cbn [fst] in *.
  exists drawn, raw. split; [reflexivity|].
  split; [exact Hnd|]. split; [exact Hincl|].
  rewrite Hlen, length_seq. lia.
Qed.

(** The search of the script samples without replacement: whatever the
    grid and the state of the generator, its candidates are the grid
    entries at as many different positions of the grid as the smaller of
    10 and the size of the grid; nothing is printed or written. *)
Theorem search_candidates_are_distinct_grid_positions (g : grid) (w : world) :
  exists drawn raw,
    ParameterSampler RandomState g script_search_args w
    = (mkworld (console w) (files w) raw, ok (map (grid_getitem g) drawn))
    /\ NoDup drawn
    /\ Forall (fun i => i < grid_size g) drawn
    /\ List.length drawn = Nat.min 10 (grid_size g).
Proof.
  destruct (script_sampler g w) as (drawn & raw & Hrun & Hnd & Hincl & Hlen).
  exists drawn, raw. split; [exact Hrun|]. split; [exact Hnd|].
  split; [|exact Hlen].
  apply Forall_forall. intros i Hi. apply Hincl, in_seq in Hi. lia.
Qed.

(** A grid of at most 10 entries is searched exhaustively: the
    candidates are the whole grid in some order, whatever the state of
    the generator.  Random Forest, with its 9 entries, is the case in
    the script. *)
Theorem small_grid_searched_exhaustively (g : grid) (w : world) :
  grid_size g <= 10 ->
  exists candidates w',
    ParameterSampler RandomState g script_search_args w = (w', ok candidates)
    /\ Permutation candidates (map (grid_getitem g) (seq 0 (grid_size g))).
Proof.
  intros Hsmall.
  destruct (script_sampler g w) as (drawn & raw & Hrun & Hnd & Hincl & Hlen).
  eexists. eexists. split; [exact Hrun|].
  apply Permutation_map. apply NoDup_Permutation_bis; [exact Hnd | | exact Hincl].
  rewrite length_seq, Hlen. lia.
Qed.

(** Whenever the fit of the script's search returns, for whatever grid,
    data and state of the generator, the best parameters it reports are
    an entry of the grid it was given. *)
Theorem search_best_is_grid_entry (model : pipeline) (g : grid)
    (X : DataFrame) (y : Series) (w w' : world)
    (random_search : fitted_search estimator) :
  random_search_fit estimator RandomState cross_val_score fit_pipeline
    model g script_search_args X y w
  = (w', ok random_search) ->
  exists i,
    i < grid_size g
    /\ best_params_ estimator random_search = grid_getitem g i.
Proof.
  destruct (script_sampler g w) as (drawn & raw & Hrun & Hnd & Hincl & Hlen).
  unfold random_search_fit, search_best, seq_bind. rewrite Hrun.
  unfold ret, lift, raise, ok. cbv beta iota.
  destruct (best_of _) as [best|] eqn:Hbest; cbv beta iota; [|discriminate].
  destruct (fit_pipeline model best X y) as [e|fitted]; cbv beta iota;
    [discriminate|].
  intros H. injection H as _ <-. cbn [best_params_].
  assert (Hin : In best (map (grid_getitem g) drawn)).
  { destruct (map (grid_getitem g) drawn) as [|c cs] eqn:Hc; [discriminate|].
    destruct (best_of_candidates (fun p => cross_val_score model p X y) (c :: cs))
      as [best' [Hbest' Hin']]; [discriminate|].
    assert (Hsame : best' = best) by congruence. rewrite <- Hsame. exact Hin'. }
  apply in_map_iff in Hin. destruct Hin as [i [<- Hi]].
  exists i. split; [|reflexivity].
  apply Hincl, in_seq in Hi. lia.
Qed.

End Candidates.

Lemma small_grid_searched_exhaustively_witness :
  exists candidates w',
    ParameterSampler Sample.RandomState (param_distributions "Random Forest")
      script_search_args Sample.fresh_world = (w', ok candidates)
    /\ Permutation candidates
         (map (grid_getitem (param_distributions "Random Forest"))
              (seq 0 (grid_size (param_distributions "Random Forest")))).
Proof.
  apply (small_grid_searched_exhaustively Sample.RandomState
           (param_distributions "Random Forest") Sample.fresh_world).
  vm_compute. lia.
Defined.

Lemma search_best_is_grid_entry_witness :
  exists w' random_search i,
    random_search_fit Sample.estimator Sample.RandomState
      Sample.cross_val_score Sample.fit_pipeline
      (mkpipeline [] [] (mkreg "SVR" []))
      (param_distributions "SVR") script_search_args
      (read_csv Sample.test_csv) [] Sample.fresh_world
    = (w', ok random_search)
    /\ i < grid_size (param_distributions "SVR")
    /\ best_params_ Sample.estimator random_search
       = grid_getitem (param_distributions "SVR") i.
Proof.
  destruct (random_search_fit Sample.estimator Sample.RandomState
              Sample.cross_val_score Sample.fit_pipeline
              (mkpipeline [] [] (mkreg "SVR" []))
              (param_distributions "SVR") script_search_args
              (read_csv Sample.test_csv) [] Sample.fresh_world)
    as [w' [e|random_search]] eqn:Hrun.
  - vm_compute in Hrun. discriminate.
  - destruct (search_best_is_grid_entry Sample.estimator Sample.RandomState
                Sample.cross_val_score Sample.fit_pipeline
                (mkpipeline [] [] (mkreg "SVR" []))
                (param_distributions "SVR")
                (read_csv Sample.test_csv) [] Sample.fresh_world w'
                random_search Hrun) as [i Hi].
    exists w', random_search, i. split; [reflexivity | exact Hi].
Defined.

(** ** Grid entries *)

Section GridEntries.

Lemma insert_item_permutation {V : Type} (kv : string * V)
    (d : list (string * V)) :
  Permutation (insert_item kv d) (kv :: d).
Proof.
  induction d as [|kv' d IH]; simpl; [apply Permutation_refl|].
  destruct (String.leb (fst kv) (fst kv')); [apply Permutation_refl|].
  eapply Permutation_trans; [apply perm_skip, IH | apply perm_swap].
Qed.

Lemma sorted_items_permutation {V : Type} (d : list (string * V)) :
  Permutation (sorted_items d) d.
Proof.
  unfold sorted_items. induction d as [|kv d IH]; simpl; [constructor|].
  eapply Permutation_trans; [apply insert_item_permutation|].
  apply perm_skip, IH.
Qed.

Lemma grid_decode_keys (items : grid) :
  forall ind, map fst (grid_decode items ind) = map fst items.
Proof.
  induction items as [|[key v_list] items IH]; intros ind; simpl;
    [reflexivity | f_equal; apply IH].
Qed.

Lemma grid_decode_values (items : grid) :
  forall ind k v,
    Forall (fun kv => snd kv <> []) items ->
    In (k, v) (grid_decode items ind) ->
    exists vs, In (k, vs) items /\ In v vs.
Proof.
  induction items as [|[key v_list] items IH]; intros ind k v Hne Hin;
    simpl in Hin; [destruct Hin|].
  inversion Hne as [|? ? Hv Hne']; subst. simpl in Hv.
  destruct Hin as [Heq|Hin].
  - injection Heq as <- <-. exists v_list. split; [left; reflexivity|].
    apply nth_In. apply Nat.mod_upper_bound.
    destruct v_list; [congruence | discriminate].
  - destruct (IH _ _ _ Hne' Hin) as [vs [Hvs Hv']].
    exists vs. split; [right; exact Hvs | exact Hv'].
Qed.

(** An entry of a grid whose candidate lists are not empty gives a value
    to each key of the grid, once, and the value of a key is one of the
    candidates listed for it. *)
Theorem grid_entry_takes_listed_values (g : grid) (ind : nat) :
  Forall (fun kv => snd kv <> []) g ->
  Permutation (map fst (grid_getitem g ind)) (map fst g)
  /\ forall k v, In (k, v) (grid_getitem g ind) ->
                 exists vs, In (k, vs) g /\ In v vs.
Proof.
  intros Hne. unfold grid_getitem.
  assert (Hperm : Permutation (rev (sorted_items g)) g).
  { eapply Permutation_trans;
      [apply Permutation_sym, Permutation_rev | apply sorted_items_permutation]. }
  split.
  - rewrite grid_decode_keys. apply Permutation_map, Hperm.
  - intros k v Hin.
    destruct (grid_decode_values (rev (sorted_items g)) ind k v) as [vs [Hvs Hv]].
    + rewrite Forall_forall in *. intros kv Hkv. apply Hne.
      eapply Permutation_in; [exact Hperm | exact Hkv].
    + exact Hin.
    + exists vs. split; [|exact Hv].
      eapply Permutation_in; [exact Hperm | exact Hvs].
Qed.

End GridEntries.

Lemma grid_entry_takes_listed_values_witness :
  Permutation (map fst (grid_getitem (param_distributions "SVR") 7))
              (map fst (param_distributions "SVR"))
  /\ forall k v, In (k, v) (grid_getitem (param_distributions "SVR") 7) ->
                 exists vs, In (k, vs) (param_distributions "SVR") /\ In v vs.
Proof.
  apply (grid_entry_takes_listed_values (param_distributions "SVR") 7).
  repeat constructor; discriminate.
Defined.

(** ** The pieces of the selection *)

Section Pieces.

Lemma split_not_empty (sep : ascii) (s : string) : split sep s <> [].
Proof.
  destruct s as [|c s]; simpl; [discriminate|].
  destruct (Ascii.eqb c sep); [discriminate|].
  destruct (split sep s); discriminate.
Qed.

Lemma join_cons (sep piece : string) (rest : list string) :
  rest <> [] ->
  join sep (piece :: rest) = (piece ++ sep ++ join sep rest)%string.
Proof.
  destruct rest as [|p rest]; [congruence | reflexivity].
Qed.

Lemma join_split (sep : ascii) (s : string) :
  join (String sep EmptyString) (split sep s) = s.
Proof.
  induction s as [|c s IH]; [reflexivity|].
  cbn [split]. destruct (Ascii.eqb_spec c sep) as [->|Hne].
  - rewrite join_cons by apply split_not_empty. rewrite IH. reflexivity.
  - pose proof (split_not_empty sep s) as Hs.
    destruct (split sep s) as [|piece pieces]; [congruence|].
    destruct pieces as [|p pieces].
    + simpl in *. rewrite IH. reflexivity.
    + rewrite join_cons by discriminate.
      rewrite join_cons in IH by discriminate.
      simpl. rewrite <- IH. reflexivity.
Qed.

Lemma split_pieces_without_separator (sep : ascii) (s : string) :
  Forall (fun piece => occurs sep piece = false) (split sep s).
Proof.
  induction s as [|c s IH]; [repeat constructor|].
  cbn [split]. destruct (Ascii.eqb c sep) eqn:Hc.
  - constructor; [reflexivity | exact IH].
  - pose proof (split_not_empty sep s) as Hs.
    destruct (split sep s) as [|piece pieces]; [congruence|].
    inversion IH as [|? ? Hp Hps]; subst.
    constructor; [|exact Hps]. simpl. rewrite Hc, Hp. reflexivity.
Qed.

(** Unless the input is "all" in some mix of cases, the tokens of the
    selection are the input cut at its commas and nothing else: there
    is at least one token, no token holds a comma, and the tokens
    joined by commas give the input back, blanks and empty pieces
    included. *)
Theorem selection_tokens_are_the_input (selected_models : string) :
  lower selected_models <> "all" ->
  parse_selection selected_models <> []
  /\ Forall (fun piece => occurs "," piece = false)
            (parse_selection selected_models)
  /\ join "," (parse_selection selected_models) = selected_models.
Proof.
  intros Hnot. unfold parse_selection.
  destruct (String.eqb_spec (lower selected_models) "all"); [contradiction|].
  split; [apply split_not_empty|].
  split; [apply split_pieces_without_separator | apply join_split].
Qed.

End Pieces.

Lemma selection_tokens_are_the_input_witness :
  parse_selection " 1,,2 " <> []
  /\ Forall (fun piece => occurs "," piece = false) (parse_selection " 1,,2 ")
  /\ join "," (parse_selection " 1,,2 ") = " 1,,2 ".
Proof.
  apply (selection_tokens_are_the_input " 1,,2 ").
  vm_compute. discriminate.
Defined.

(** ** A valid selection completes *)

Section Completion.

Variable estimator : Type.
Variable RandomState : Z -> list nat.
Variable cross_val_score : pipeline -> params -> DataFrame -> Series -> F64.t.
Variable fit_pipeline : pipeline -> params -> DataFrame -> Series -> exc estimator.
Variable fit_stacking :
  list (string * estimator) -> DataFrame -> Series -> exc estimator.
Variable predict : estimator -> DataFrame -> exc (list F64.t).
Variable mean_squared_error : Series -> list F64.t -> F64.t.

(** Once the loop has returned on a selection with at least one valid
    token and no valid token twice, and as long as the stacking fit and
    the predictions do not raise, the stacking stage run against a test
    table that has the [id] column returns and leaves the submission
    behind: the [id] column of the test table and a column of
    predictions under the name of the target. *)
Theorem valid_selection_completes
    (numeric categorical : list string) (X_train X_val : DataFrame)
    (y_train y_val : Series) (test : DataFrame) (selected : list string)
    (w w1 : world) (base_models : list (string * estimator)) :
  selection_loop estimator RandomState cross_val_score fit_pipeline predict
    mean_squared_error numeric categorical X_train X_val y_train y_val
    selected w
  = (w1, ok base_models) ->
  retained_names selected <> [] ->
  unique (retained_names selected) = true ->
  has_key "id" (columns test) = true ->
  (forall ests X y, exists fitted, fit_stacking ests X y = ok fitted) ->
  (forall fitted X, exists v, predict fitted X = ok v) ->
  exists w' ids test_predictions,
    stacking_stage estimator fit_stacking predict mean_squared_error
      base_models X_train X_val y_train y_val test w1
    = (w', ok tt)
    /\ getitem test "id" = ok ids
    /\ lookup submission_path (files w')
       = Some [("id", ids); (target_name, Float64 test_predictions)].
Proof.
  intros Hloop Hne Hunique Hid Hstack Hpredict.
  unfold selection_loop in Hloop.
  destruct (loop_retains _ _ _ _ _ _ _ _ _ _ _ _ _ _ _ _ _ Hloop) as [Hnames _].
  cbn [map app] in Hnames.
  unfold stacking_stage, seq_bind, lift, stacking_fit, print, to_csv, ret, ok.
  cbn [estimators].
  rewrite validate_catalogue_names
    by (rewrite Hnames; apply retained_in_catalogue).
  rewrite Hnames, Hunique.
  destruct base_models as [|b bs]; [cbn [map] in Hnames; congruence|].
  cbn [List.length Nat.eqb negb bind ok].
  destruct (Hstack (b :: bs) X_train y_train) as [fitted ->].
  unfold ok. cbv beta iota.
  destruct (Hpredict fitted X_val) as [v ->]. unfold ok. cbv beta iota.
  assert (Hdrop : exists features, drop ["id"] test = inr features).
  { unfold drop. cbn [filter]. rewrite Hid. cbn [negb]. eexists. reflexivity. }
  destruct Hdrop as [features ->]. cbv beta iota.
  destruct (Hpredict fitted features) as [v' ->]. unfold ok. cbv beta iota.
  unfold getitem. unfold has_key in Hid.
  destruct (lookup "id" (columns test)) as [ids|]; [|discriminate].
  unfold ok. cbv beta iota. cbn [console files numpy_global columns].
  eexists. exists ids, v'. split; [reflexivity|]. cbn [files].
  split; [reflexivity | apply lookup_assign_same].
Qed.

End Completion.

Lemma valid_selection_completes_witness :
  exists w1 base_models w' ids test_predictions,
    selection_loop Sample.estimator Sample.RandomState Sample.cross_val_score
      Sample.fit_pipeline Sample.predict Sample.mean_squared_error [] []
      (read_csv Sample.test_csv) (read_csv Sample.test_csv) [] []
      ["5"; "0"; "1"] Sample.fresh_world
    = (w1, ok base_models)
    /\ stacking_stage Sample.estimator Sample.fit_stacking Sample.predict
         Sample.mean_squared_error base_models
         (read_csv Sample.test_csv) (read_csv Sample.test_csv) [] []
         (read_csv Sample.test_csv) w1
       = (w', ok tt)
    /\ getitem (read_csv Sample.test_csv) "id" = ok ids
    /\ lookup submission_path (files w')
       = Some [("id", ids); (target_name, Float64 test_predictions)].
Proof.
  destruct (selection_loop Sample.estimator Sample.RandomState
              Sample.cross_val_score Sample.fit_pipeline Sample.predict
              Sample.mean_squared_error [] []
              (read_csv Sample.test_csv) (read_csv Sample.test_csv) [] []
              ["5"; "0"; "1"] Sample.fresh_world)
    as [w1 [e|base_models]] eqn:Hloop.
  - vm_compute in Hloop. discriminate.
  - destruct (valid_selection_completes Sample.estimator Sample.RandomState
                Sample.cross_val_score Sample.fit_pipeline Sample.fit_stacking
                Sample.predict Sample.mean_squared_error [] []
                (read_csv Sample.test_csv) (read_csv Sample.test_csv) [] []
                (read_csv Sample.test_csv) ["5"; "0"; "1"] Sample.fresh_world
                w1 base_models Hloop)
      as (w' & ids & preds & H).
    + vm_compute. discriminate.
    + reflexivity.
    + reflexivity.
    + intros. eexists. reflexivity.
    + intros. eexists. reflexivity.
    + exists w1, base_models, w', ids, preds. split; [reflexivity | exact H].
Defined.

